(** * RAG3D-Chat: the navigation plugin (src/plugins/nav_plugin.py) and the
      path visualizer (src/misc/navmesh_vis.py), embedded in Rocq.

    Coordinates are numpy float64 values, modelled by the kernel's binary64
    floats.  Python strings are modelled by [string]; the characters the
    parser looks at (parentheses and the comma) are ASCII.  Calls into
    libraries that are not part of the repository (the chat model, igl,
    pygeodesic, plotly, numpy's text conversions) are fields of the records
    [AbstractLlmChat] and [Libraries]; each may return a value or raise.
    Methods run in a small state-and-exception monad whose store holds the
    plugin object and the sequence of observable events. *)

From Stdlib Require Import Floats Uint63 ZArith List String Ascii Bool Arith Lia.
From Stdlib Require Import DecimalString.
From Stdlib Require QArith.
Import ListNotations.

Local Open Scope string_scope.
Local Open Scope list_scope.

(** ** Python outcomes *)

(** An exception, identified by the name of its class. *)
Inductive exn : Type :=
| PyExn (cls : string).

Definition ValueError : exn := PyExn "ValueError".
Definition IndexError : exn := PyExn "IndexError".

(** What a call does: it returns a value or raises. *)
Inductive Outcome (A : Type) : Type :=
| Returned (a : A)
| Raised (e : exn).

Arguments Returned {A} a.
Arguments Raised {A} e.

(** ** Data model *)

(** A row of three float64 values: a vertex, a query point, a waypoint. *)
Definition point : Type := (float * float * float)%type.

(** A face: three vertex indices, as the integers read from the mesh file
    (an int64 array). *)
Definition face : Type := (Z * Z * Z)%type.

Definition px (p : point) : float := fst (fst p).
Definition py (p : point) : float := snd (fst p).
Definition pz (p : point) : float := snd p.

Definition coords (p : point) : list float := [px p; py p; pz p].

(** [goal - start], [vertices - closest_point]: elementwise subtraction. *)
Definition psub (a b : point) : point :=
  ((px a - px b)%float, (py a - py b)%float, (pz a - pz b)%float).

(** [np.linalg.norm] of a row of three values: the square root of the sum of
    the squares, summed left to right. *)
Definition linalg_norm (p : point) : float :=
  PrimFloat.sqrt (px p * px p + py p * py p + pz p * pz p)%float.

Definition finite3 (p : point) : bool :=
  is_finite (px p) && is_finite (py p) && is_finite (pz p).

(** ** numpy helpers *)

(** [np.argmin] over float64: the scan keeps the first element and replaces
    it by a later one when [not (later >= kept)]; a NaN, once kept, ends the
    scan.  [i] is the index of [x] and [best], [m] the kept index and value. *)
Fixpoint argmin_from (i : nat) (best : nat) (m : float) (xs : list float) : nat :=
  if is_nan m then best
  else match xs with
       | [] => best
       | x :: rest =>
           if negb (m <=? x)%float
           then argmin_from (S i) i x rest
           else argmin_from (S i) best m rest
       end.

(** [np.argmin(distances)]; an empty array raises ValueError. *)
Definition argmin (xs : list float) : Outcome nat :=
  match xs with
  | [] => Raised ValueError
  | x :: rest => Returned (argmin_from 1 0 x rest)
  end.

(** [a[i]] on a numpy array or a list with an int64 index: negative indices
    count from the end, anything else out of range raises IndexError. *)
Definition getitem {A : Type} (a : list A) (i : Z) : Outcome A :=
  let n := Z.of_nat (List.length a) in
  let j := if (i <? 0)%Z then (i + n)%Z else i in
  if ((0 <=? j)%Z && (j <? n)%Z)%bool
  then match nth_error a (Z.to_nat j) with
       | Some x => Returned x
       | None => Raised IndexError
       end
  else Raised IndexError.

(** [.reshape(-1, 3)] of a one-dimensional array: rows of three, ValueError
    when the size is not a multiple of three. *)
Fixpoint reshape3 (xs : list float) : Outcome (list point) :=
  match xs with
  | [] => Returned []
  | x :: y :: z :: rest =>
      match reshape3 rest with
      | Returned rows => Returned ((x, y, z) :: rows)
      | Raised e => Raised e
      end
  | _ => Raised ValueError
  end.

(** ** Python string helpers *)

(** [s.replace(c, "")] for a one-character [c]. *)
Fixpoint remove_char (c : ascii) (s : string) : string :=
  match s with
  | EmptyString => EmptyString
  | String a rest =>
      if Ascii.eqb a c then remove_char c rest
      else String a (remove_char c rest)
  end.

(** [s.split(c)] for a one-character separator: always at least one piece. *)
Fixpoint split (c : ascii) (s : string) : list string :=
  match s with
  | EmptyString => [EmptyString]
  | String a rest =>
      if Ascii.eqb a c then EmptyString :: split c rest
      else match split c rest with
           | piece :: pieces => String a piece :: pieces
           | [] => [String a EmptyString]
           end
  end.

(** [sep.join(pieces)]. *)
Fixpoint join (sep : string) (pieces : list string) : string :=
  match pieces with
  | [] => EmptyString
  | [p] => p
  | p :: rest => (p ++ sep ++ join sep rest)%string
  end.

(** ** Collaborators *)

(** core/interfaces.py, [AbstractLlmChat]: the chat model behind the
    coordinate extraction. *)
Record AbstractLlmChat : Type := {
  get_response : string -> string -> Outcome string
}.

(** plotly's figure, as far as [visualize_navmesh_3d] fills it. *)
Inductive plot_trace : Type :=
| Mesh3d (x y z : list float) (i j k : list nat) (color : string)
| Scatter3dLines (x y z : list (option float)) (color : string) (name : string)
| Scatter3dMarkers (x y z : list float) (color : string) (name : string).

Record Figure : Type := {
  fig_data : list plot_trace;
  fig_zaxis_range : option (float * float)
}.

(** The libraries the plugin calls and the repository does not contain. *)
Record Libraries : Type := {
  (** numpy's conversion of a string to float64; [None] is its ValueError *)
  float_of_string : string -> option float;
  (** [str] of a float, as an f-string or [map(str, ...)] prints it *)
  str_float : float -> string;
  (** [str] of a one-dimensional array, used in log lines only *)
  str_array : point -> string;
  (** [np.round(x, 2)] on one element *)
  round2 : float -> float;
  (** [geodesic.read_mesh_from_file] *)
  read_mesh_from_file : string -> Outcome (list point * list face);
  (** [igl.signed_distance(np.array([point]), V, F)]: its third result, the
      closest point on the surface *)
  signed_distance : point -> list point -> list face -> Outcome point;
  (** [PyGeodesicAlgorithmExact(V, F).geodesicDistance(s, g)]: the length
      (a float or None) and the path (an array of rows, or None) *)
  geodesicDistance :
    list point -> list face -> nat -> nat ->
    Outcome (option float * option (list point));
  (** [fig.write_html(out_filename)] *)
  write_html : Figure -> string -> Outcome unit
}.

(** ** The plugin object and the observable events *)

Record NavPlugin : Type := {
  _vertices : list point;
  _faces : list face;
  _llm_chat : AbstractLlmChat;
  _vis_dirpath : option string
}.

Inductive event : Type :=
| LogInfo (msg : string)
| LlmCall (system_msg query : string)
| SignedDistanceCall (p : point)
| GeodesicCall (source target : nat)
| WriteHtmlCall (out_filename : string) (fig : Figure).

Definition is_visualization (e : event) : bool :=
  match e with WriteHtmlCall _ _ => true | _ => false end.

Definition is_snap_or_solve (e : event) : bool :=
  match e with
  | SignedDistanceCall _ | GeodesicCall _ _ => true
  | _ => false
  end.

(** The store a method runs in: the plugin object and the events so far,
    oldest first. *)
Record Store : Type := {
  self : NavPlugin;
  events : list event
}.

(** ** The monad of methods *)

Definition M (A : Type) : Type := Store -> Outcome A * Store.

Definition ret {A : Type} (a : A) : M A := fun st => (Returned a, st).

Definition raise {A : Type} (e : exn) : M A := fun st => (Raised e, st).

Definition bind {A B : Type} (m : M A) (k : A -> M B) : M B :=
  fun st =>
    match m st with
    | (Returned a, st') => k a st'
    | (Raised e, st') => (Raised e, st')
    end.

(** [try: body except Exception: handler]. *)
Definition try_except {A : Type} (body : M A) (handler : exn -> M A) : M A :=
  fun st =>
    match body st with
    | (Returned a, st') => (Returned a, st')
    | (Raised e, st') => handler e st'
    end.

Definition lift {A : Type} (o : Outcome A) : M A := fun st => (o, st).

Definition emit (e : event) : M unit :=
  fun st => (Returned tt, {| self := self st; events := events st ++ [e] |}).

Definition get_self : M NavPlugin := fun st => (Returned (self st), st).

(** An assignment to the plugin object. *)
Definition set_self (p : NavPlugin) : M unit :=
  fun st => (Returned tt, {| self := p; events := events st |}).

Declare Scope py_scope.
Delimit Scope py_scope with py.
Notation "x <- m ;; k" := (bind m (fun x => k))
  (at level 100, m at next level, right associativity) : py_scope.
Notation "' pat <- m ;; k" := (bind m (fun x => match x with pat => k end))
  (at level 100, pat pattern, m at next level, right associativity) : py_scope.
Notation "m ;; k" := (bind m (fun _ => k))
  (at level 100, right associativity) : py_scope.
Local Open Scope py_scope.

(** [logger.info(msg)]. *)
Definition logger_info (msg : string) : M unit := emit (LogInfo msg).

(** Binding inside [Outcome], for code that touches no store. *)
Definition obind {A B : Type} (o : Outcome A) (k : A -> Outcome B) : Outcome B :=
  match o with
  | Returned a => k a
  | Raised e => Raised e
  end.

(** ** plugins/plugin_prompts.py *)

Definition NAV_SYSTEM_PROMPT : string :=
  ("Act as a text-to-positions converter. Your job is to process a natural language query which contains information about 3D positions of two objects. "
   ++ "Return an answer in the following format: '(x1,y1,z1),(x2,y2,z2)', where x1,y1,z1 correspond to 3D position of the first object and x2,y2,z2 are the coordinates of the second object. "
   ++ "Make sure that the xyz positions have no more than three decimal values. "
   ++ "If in the input there are no positions given, the positions do not have all 3 components each, the values cannot be parsed to values or if there are too few/too many objects, return 'None'. "
   ++ "Do not perform actions that are not related to this task.")%string.

(** ** The three answers of the navigation plugin *)

Definition distance_message (value : string) : string :=
  ("The distance between specified points is " ++ value ++ " meters.")%string.

Definition not_navigable_message : string :=
  "The path between specified objects is not navigable considering obstacles.".

Definition extraction_failed_message : string :=
  ("The query does not contain information about the objects' "
   ++ "positions or the positions could not be parsed.")%string.

(** ** misc/navmesh_vis.py *)

(** Python's [max(m, *xs)] and [min(m, *xs)]: a later item replaces the kept
    one when it compares greater (smaller). *)
Definition py_max (m : float) (xs : list float) : float :=
  fold_left (fun m x => if (m <? x)%float then x else m) xs m.

Definition py_min (m : float) (xs : list float) : float :=
  fold_left (fun m x => if (x <? m)%float then x else m) xs m.

(** What the loop over the faces accumulates. *)
Record MeshScan : Type := {
  max_xyz : float;
  min_xyz : float;
  triangles : list (point * point * point);
  edge_x : list (option float);
  edge_y : list (option float);
  edge_z : list (option float)
}.

Definition edge_of (c : point -> float) (v1 v2 v3 : point) : list (option float) :=
  [Some (c v1); Some (c v2); Some (c v2); Some (c v3); Some (c v3); Some (c v1); None].

(** [for face in faces: ...]. *)
Fixpoint scan_faces (vertices : list point) (faces : list face) (acc : MeshScan)
  : Outcome MeshScan :=
  match faces with
  | [] => Returned acc
  | (f0, f1, f2) :: rest =>
      obind (getitem vertices f0) (fun v1 =>
      obind (getitem vertices f1) (fun v2 =>
      obind (getitem vertices f2) (fun v3 =>
      scan_faces vertices rest
        {| max_xyz := py_max (max_xyz acc) (coords v1 ++ coords v2 ++ coords v3);
           min_xyz := py_min (min_xyz acc) (coords v1 ++ coords v2 ++ coords v3);
           triangles := triangles acc ++ [(v1, v2, v3)];
           edge_x := edge_x acc ++ edge_of px v1 v2 v3;
           edge_y := edge_y acc ++ edge_of py v1 v2 v3;
           edge_z := edge_z acc ++ edge_of pz v1 v2 v3 |})))
  end.

(** [np.concatenate(triangles)]: the rows of all triangles; no triangle at
    all raises ValueError. *)
Definition concatenate (ts : list (point * point * point)) : Outcome (list point) :=
  match ts with
  | [] => Raised ValueError
  | _ => Returned (flat_map (fun t => [fst (fst t); snd (fst t); snd t]) ts)
  end.

(** Python unpacks the zip of the starred rows into three names, the three
    columns; with no row there is nothing to unpack and it raises
    ValueError. *)
Definition unpack_columns (rows : list point)
  : Outcome (list float * list float * list float) :=
  match rows with
  | [] => Raised ValueError
  | _ => Returned (map px rows, map py rows, map pz rows)
  end.

(** [range(0, n, 3)]. *)
Definition range_step3 (n : nat) : list nat :=
  map (fun q => 3 * q) (seq 0 ((n + 2) / 3)).

(** One marker per entry of [points], in the order of the dict. *)
Definition marker_traces (points : list (string * (point * string))) : list plot_trace :=
  map (fun entry =>
         let p := fst (snd entry) in
         Scatter3dMarkers [px p] [py p] [pz p] (snd (snd entry)) (fst entry))
      points.

Section Plugin.

Variable L : Libraries.

(** The figure keeps the coordinates, colours and names of the traces (not
    the opacity, the line width or the marker size); [points] is the dict
    the plugin always passes, in insertion order. *)
Definition visualize_navmesh_3d
    (vertices : list point) (faces : list face) (out_filename : string)
    (waypoints : option (list point))
    (points : list (string * (point * string))) : M unit :=
  scan <- lift (scan_faces vertices faces
                  {| max_xyz := neg_infinity; min_xyz := infinity;
                     triangles := []; edge_x := []; edge_y := []; edge_z := [] |}) ;;
  rows <- lift (concatenate (triangles scan)) ;;
  '(x, y, z) <- lift (unpack_columns rows) ;;
  let starts := range_step3 (List.length x) in
  let mesh := Mesh3d x y z starts (map (fun i => i + 1) starts)
                     (map (fun i => i + 2) starts) "blue" in
  let edges := Scatter3dLines (edge_x scan) (edge_y scan) (edge_z scan) "black" "edges" in
  path_trace <-
    match waypoints with
    | Some rows =>
        '(wx, wy, wz) <- lift (unpack_columns rows) ;;
        ret [Scatter3dLines (map Some wx) (map Some wy) (map Some wz)
                            "red" "shortest path"]
    | None => ret []
    end ;;
  let fig :=
    {| fig_data := [mesh; edges] ++ path_trace ++ marker_traces points;
       fig_zaxis_range := Some ((min_xyz scan - 1)%float, (max_xyz scan + 1)%float) |} in
  emit (WriteHtmlCall out_filename fig) ;;
  lift (write_html L fig out_filename).

(** ** plugins/nav_plugin.py *)

(** [np.array(split_values, dtype=float)]. *)
Fixpoint array_of_strings (values : list string) : Outcome (list float) :=
  match values with
  | [] => Returned []
  | v :: rest =>
      match float_of_string L v with
      | None => Raised ValueError
      | Some x => obind (array_of_strings rest) (fun xs => Returned (x :: xs))
      end
  end.

(** Inside the [try] only ValueError (a field that is no float, a size that
    is not a multiple of three) and IndexError (fewer than two rows) can be
    raised; [except Exception] catches both.  The two rows are indexed once
    for the log line and once for the [return]. *)
Definition _nl_to_numpy (natural_language_descr : string)
  : M (option point * option point) :=
  logger_info ("Natural language description: " ++ natural_language_descr)%string ;;
  me <- get_self ;;
  emit (LlmCall NAV_SYSTEM_PROMPT natural_language_descr) ;;
  response <- lift (get_response (_llm_chat me) NAV_SYSTEM_PROMPT natural_language_descr) ;;
  logger_info ("Retrieved positions: " ++ response)%string ;;
  if String.eqb response "None" then ret (None, None)
  else
    try_except
      (let cleaned_string := remove_char ")" (remove_char "(" response) in
       let split_values := split "," cleaned_string in
       flat <- lift (array_of_strings split_values) ;;
       numpy_arrays <- lift (reshape3 flat) ;;
       first <- lift (getitem numpy_arrays 0) ;;
       second <- lift (getitem numpy_arrays 1) ;;
       logger_info ("The distance is calculated between " ++ str_array L first
                    ++ " and " ++ str_array L second ++ ".")%string ;;
       first' <- lift (getitem numpy_arrays 0) ;;
       second' <- lift (getitem numpy_arrays 1) ;;
       ret (Some first', Some second'))
      (fun _ =>
         logger_info "Could not parse the positions." ;;
         ret (None, None)).

Definition _snap_to_closest_vertex (p : point) : M (point * point * nat) :=
  me <- get_self ;;
  emit (SignedDistanceCall p) ;;
  closest_point <- lift (signed_distance L p (_vertices me) (_faces me)) ;;
  let distances := map (fun v => linalg_norm (psub v closest_point)) (_vertices me) in
  closest_vertex_index <- lift (argmin distances) ;;
  closest_vertex <- lift (getitem (_vertices me) (Z.of_nat closest_vertex_index)) ;;
  ret (closest_point, closest_vertex, closest_vertex_index).

(** An f-string's rendering of the solver's length. *)
Definition str_dist (dist : option float) : string :=
  match dist with
  | Some d => str_float L d
  | None => "None"
  end.

(** [path is not None and path.size != 0]. *)
Definition path_found (path : option (list point)) : bool :=
  match path with
  | Some (_ :: _) => true
  | _ => false
  end.

(** ["-".join(map(str, np.round(p, 2)))]. *)
Definition rounded_str (p : point) : string :=
  join "-" (map (fun c => str_float L (round2 L c)) (coords p)).

(** [self._vis_dirpath / name] is the directory, a slash and the name. *)
Definition _get_navigable_distance (start goal : point) : M string :=
  me <- get_self ;;
  let response := not_navigable_message in
  '(closest_s, closest_v_s, closest_vid_s) <- _snap_to_closest_vertex start ;;
  '(closest_g, closest_v_g, closest_vid_g) <- _snap_to_closest_vertex goal ;;
  emit (GeodesicCall closest_vid_s closest_vid_g) ;;
  '(dist, path) <- lift (geodesicDistance L (_vertices me) (_faces me)
                                          closest_vid_s closest_vid_g) ;;
  let response :=
    if path_found path then distance_message (str_dist dist) else response in
  match _vis_dirpath me with
  | Some dir =>
      let points :=
        [("start", (start, "blue")); ("goal", (goal, "green"));
         ("closest_start", (closest_s, "darkblue"));
         ("closest_goal", (closest_g, "darkgreen"));
         ("closest_v_start", (closest_v_s, "lightblue"));
         ("closest_v_goal", (closest_v_g, "lightgreen"))] in
      let start_str := rounded_str start in
      let goal_str := rounded_str goal in
      let filename := (dir ++ "/" ++ start_str ++ "_" ++ goal_str ++ ".html")%string in
      logger_info ("Saving the visualization to " ++ filename)%string ;;
      visualize_navmesh_3d (_vertices me) (_faces me) filename path points ;;
      ret response
  | None => ret response
  end.

Definition get_actual_distance_from_query (natural_language_descr : string)
  : M string :=
  logger_info "Calling the navigable distance function." ;;
  '(start, goal) <- _nl_to_numpy natural_language_descr ;;
  response <-
    match start, goal with
    | Some start, Some goal => _get_navigable_distance start goal
    | _, _ => ret extraction_failed_message
    end ;;
  logger_info ("Response: " ++ response)%string ;;
  ret response.

Definition get_straight_line_distance_from_query (natural_language_descr : string)
  : M string :=
  logger_info "Calling the straight-line distance function." ;;
  '(start, goal) <- _nl_to_numpy natural_language_descr ;;
  response <-
    match start, goal with
    | Some start, Some goal =>
        let dist := linalg_norm (psub goal start) in
        ret (distance_message (str_float L dist))
    | _, _ => ret extraction_failed_message
    end ;;
  logger_info ("Response: " ++ response)%string ;;
  ret response.

(** [NavPlugin.__init__]: the mesh is read once, here. *)
Definition NavPlugin_init (navmesh_filepath : string) (llm_chat : AbstractLlmChat)
    (vis_dirpath : option string) : Outcome NavPlugin :=
  obind (read_mesh_from_file L navmesh_filepath) (fun mesh =>
    Returned {| _vertices := fst mesh; _faces := snd mesh;
                _llm_chat := llm_chat; _vis_dirpath := vis_dirpath |}).

End Plugin.


(** ** Vocabulary of the statements *)

(** The response, without its parentheses, cut at the commas. *)
Definition response_fields (response : string) : list string :=
  split "," (remove_char ")" (remove_char "(" response)).

(** Every field of the response is float-parseable, to [values] in order. *)
Definition fields_parse (L : Libraries) (response : string) (values : list float) : Prop :=
  Forall2 (fun s x => float_of_string L s = Some x) (response_fields response) values.

(** The response holds 3k float-parseable values with k >= 2. *)
Definition holds_two_triples (L : Libraries) (response : string) : Prop :=
  exists values k,
    fields_parse L response values /\ List.length values = 3 * k /\ 2 <= k.

(** The rows the parser builds from a response, as one expression. *)
Definition parsed_rows (L : Libraries) (response : string) : Outcome (list point) :=
  obind (array_of_strings L (response_fields response)) reshape3.

(** What [_nl_to_numpy] hands back for a response of the chat model. *)
Definition positions_of (L : Libraries) (response : string)
  : option point * option point :=
  if String.eqb response "None" then (None, None)
  else match parsed_rows L response with
       | Returned (first :: second :: _) => (Some first, Some second)
       | _ => (None, None)
       end.

(** The distances [_snap_to_closest_vertex] takes the argmin of. *)
Definition vertex_distances (vertices : list point) (closest_point : point) : list float :=
  map (fun v => linalg_norm (psub v closest_point)) vertices.

(** The file the visualization of a query is written to. *)
Definition vis_filename (L : Libraries) (dir : string) (start goal : point) : string :=
  (dir ++ "/" ++ rounded_str L start ++ "_" ++ rounded_str L goal ++ ".html")%string.

(** The answer [_get_navigable_distance] builds from the solver's result. *)
Definition answer_of (L : Libraries) (dist : option float) (path : option (list point))
  : string :=
  if path_found path then distance_message (str_dist L dist) else not_navigable_message.

(** What [_snap_to_closest_vertex] returns for the plugin [me], as one
    expression. *)
Definition snap_outcome (L : Libraries) (me : NavPlugin) (p : point)
  : Outcome (point * point * nat) :=
  obind (signed_distance L p (_vertices me) (_faces me)) (fun closest_point =>
  obind (argmin (vertex_distances (_vertices me) closest_point)) (fun index =>
  obind (getitem (_vertices me) (Z.of_nat index)) (fun closest_vertex =>
  Returned (closest_point, closest_vertex, index)))).

(** The markers [_get_navigable_distance] hands to the visualizer. *)
Definition markers (start goal closest_s closest_g closest_v_s closest_v_g : point)
  : list (string * (point * string)) :=
  [("start", (start, "blue")); ("goal", (goal, "green"));
   ("closest_start", (closest_s, "darkblue"));
   ("closest_goal", (closest_g, "darkgreen"));
   ("closest_v_start", (closest_v_s, "lightblue"));
   ("closest_v_goal", (closest_v_g, "lightgreen"))].

(** The figure [visualize_navmesh_3d] builds before it writes it, as one
    expression. *)
Definition figure_of (vertices : list point) (faces : list face)
    (waypoints : option (list point)) (points : list (string * (point * string)))
  : Outcome Figure :=
  obind (scan_faces vertices faces
           {| max_xyz := neg_infinity; min_xyz := infinity;
              triangles := []; edge_x := []; edge_y := []; edge_z := [] |}) (fun scan =>
  obind (concatenate (triangles scan)) (fun rows =>
  obind (unpack_columns rows) (fun xyz =>
  let starts := range_step3 (List.length (fst (fst xyz))) in
  let mesh := Mesh3d (fst (fst xyz)) (snd (fst xyz)) (snd xyz) starts
                     (map (fun i => i + 1) starts) (map (fun i => i + 2) starts) "blue" in
  let edges := Scatter3dLines (edge_x scan) (edge_y scan) (edge_z scan) "black" "edges" in
  obind (match waypoints with
         | Some rows =>
             obind (unpack_columns rows) (fun w =>
               Returned [Scatter3dLines (map Some (fst (fst w))) (map Some (snd (fst w)))
                                        (map Some (snd w)) "red" "shortest path"])
         | None => Returned []
         end) (fun path_trace =>
  Returned {| fig_data := [mesh; edges] ++ path_trace ++ marker_traces points;
              fig_zaxis_range :=
                Some ((min_xyz scan - 1)%float, (max_xyz scan + 1)%float) |})))).

(** What a call of the visualizer does: it fails while building the figure,
    or calls [write_html] on it. *)
Definition visualize_outcome (L : Libraries) (vertices : list point) (faces : list face)
    (out_filename : string) (waypoints : option (list point))
    (points : list (string * (point * string))) : Outcome unit :=
  obind (figure_of vertices faces waypoints points) (fun fig =>
    write_html L fig out_filename).

(** The store after a run that has added the events [new]. *)
Definition log_event (st : Store) (new : list event) : Store :=
  {| self := self st; events := events st ++ new |}.

(** What [_get_navigable_distance] does for the plugin [me], as one
    expression: its outcome and the events it adds. *)
Definition navigable_outcome (L : Libraries) (me : NavPlugin) (start goal : point)
  : Outcome string * list event :=
  match snap_outcome L me start with
  | Raised e => (Raised e, [SignedDistanceCall start])
  | Returned (closest_s, closest_v_s, vid_s) =>
      match snap_outcome L me goal with
      | Raised e => (Raised e, [SignedDistanceCall start; SignedDistanceCall goal])
      | Returned (closest_g, closest_v_g, vid_g) =>
          let calls := [SignedDistanceCall start; SignedDistanceCall goal;
                        GeodesicCall vid_s vid_g] in
          match geodesicDistance L (_vertices me) (_faces me) vid_s vid_g with
          | Raised e => (Raised e, calls)
          | Returned (dist, path) =>
              match _vis_dirpath me with
              | None => (Returned (answer_of L dist path), calls)
              | Some dir =>
                  let filename := vis_filename L dir start goal in
                  let points :=
                    markers start goal closest_s closest_g closest_v_s closest_v_g in
                  (obind (visualize_outcome L (_vertices me) (_faces me)
                                            filename path points)
                         (fun _ => Returned (answer_of L dist path)),
                   calls
                   ++ [LogInfo ("Saving the visualization to " ++ filename)%string]
                   ++ match figure_of (_vertices me) (_faces me) path points with
                      | Returned fig => [WriteHtmlCall filename fig]
                      | Raised _ => []
                      end)
              end
          end
      end
  end.

(** No element of [ds] is NaN. *)
Definition no_nan (ds : list float) : bool :=
  forallb (fun d => negb (is_nan d)) ds.

(** [i] is the lowest index of a minimum of [ds]: its element is not above
    any element and strictly below every earlier one. *)
Definition is_first_minimum (ds : list float) (i : nat) : Prop :=
  exists d,
    nth_error ds i = Some d /\
    (forall j x, nth_error ds j = Some x -> (d <=? x)%float = true) /\
    (forall j x, j < i -> nth_error ds j = Some x -> (d <? x)%float = true).

(** The files the events say were handed to [write_html]. *)
Definition written_files (evs : list event) : list string :=
  flat_map (fun e => match e with WriteHtmlCall out _ => [out] | _ => [] end) evs.

(** Connected components, as the glossary defines them: vertices mutually
    reachable via mesh faces.  [component] grows a set of vertices by the
    faces that touch it, once per face at most. *)
Definition face_vertices (f : face) : list Z :=
  [fst (fst f); snd (fst f); snd f].

Definition touches (comp : list Z) (f : face) : bool :=
  existsb (fun v => existsb (Z.eqb v) comp) (face_vertices f).

Definition grow (faces : list face) (comp : list Z) : list Z :=
  comp ++ flat_map (fun f => if touches comp f then face_vertices f else []) faces.

Fixpoint component (rounds : nat) (faces : list face) (comp : list Z) : list Z :=
  match rounds with
  | O => comp
  | S n => component n faces (grow faces comp)
  end.

Definition same_component (faces : list face) (a b : nat) : bool :=
  existsb (Z.eqb (Z.of_nat b)) (component (List.length faces) faces [Z.of_nat a]).

(** The mesh invariant of the data model: every face index is a valid
    vertex index. *)
Definition face_in_range (n : nat) (f : face) : bool :=
  forallb (fun v => (0 <=? v)%Z && (v <? Z.of_nat n)%Z) (face_vertices f).

Definition mesh_wf (vertices : list point) (faces : list face) : bool :=
  forallb (face_in_range (List.length vertices)) faces.

(** A computation keeps the plugin object it found. *)
Definition keeps_self {A : Type} (m : M A) : Prop :=
  forall st, self (snd (m st)) = self st.

(** ** A test bench: concrete libraries, a scripted chat model, a small mesh *)

Module Bench.

Definition digit_of (c : ascii) : option Z :=
  let n := nat_of_ascii c in
  if (48 <=? n)%nat && (n <=? 57)%nat then Some (Z.of_nat (n - 48)) else None.

Fixpoint read_digits (s : string) (acc : Z) : option Z :=
  match s with
  | EmptyString => Some acc
  | String c rest =>
      match digit_of c with
      | Some d => read_digits rest (10 * acc + d)%Z
      | None => None
      end
  end.

(** The float of an integer below 2^63, the range of the conversion. *)
Definition float_of_Z (n : Z) : float := PrimFloat.of_uint63 (Uint63.of_Z n).

(** [10^k] as a float, exact up to k = 22: above 10^18 it is the product of
    two exact powers, which float64 holds exactly. *)
Definition pow10 (k : nat) : float :=
  if (k <=? 18)%nat then float_of_Z (10 ^ Z.of_nat k)
  else (float_of_Z (10 ^ 18) * float_of_Z (10 ^ Z.of_nat (k - 18)))%float.

(** An unsigned decimal literal [ddd] or [ddd.ddd] whose digits, read as
    one integer, stay below 2^53 and whose fraction has at most 22 digits:
    the quotient of two exactly represented floats is then the correctly
    rounded value, which is what numpy returns. *)
Definition unsigned_literal (s : string) : option float :=
  match split "." s with
  | [whole] =>
      match whole, read_digits whole 0 with
      | String _ _, Some n =>
          if (n <? 2 ^ 53)%Z then Some (float_of_Z n) else None
      | _, _ => None
      end
  | [whole; frac] =>
      match read_digits (whole ++ frac) 0 with
      | Some n =>
          let k := String.length frac in
          if (0 <? String.length (whole ++ frac))%nat && (n <? 2 ^ 53)%Z && (k <=? 22)%nat
          then Some (float_of_Z n / pow10 k)%float
          else None
      | None => None
      end
  | _ => None
  end.

(** The part of numpy's text-to-float64 conversion the bench needs: plain
    decimal literals, with a sign, and the words nan and inf. *)
Definition parse_float (s : string) : option float :=
  if String.eqb s "nan" then Some nan
  else if String.eqb s "inf" then Some infinity
  else if String.eqb s "-inf" then Some neg_infinity
  else match s with
       | String "-" rest => option_map PrimFloat.opp (unsigned_literal rest)
       | _ => unsigned_literal s
       end.

Definition digits_of_Z (n : Z) : string := NilZero.string_of_uint (N.to_uint (Z.to_N n)).

Fixpoint strip_trailing_zeros (rev_digits : list ascii) : list ascii :=
  match rev_digits with
  | "0"%char :: rest => strip_trailing_zeros rest
  | _ => rev_digits
  end.

Definition pad_left (n : nat) (s : string) : string :=
  (string_of_list_ascii (repeat "0"%char (n - String.length s)) ++ s)%string.

(** The exact decimal expansion of [m * 2^e], written as Python writes a
    float that has one: digits, a point, at least one digit after it. *)
Definition exact_decimal (m : positive) (e : Z) : string :=
  if (0 <=? e)%Z then (digits_of_Z (Z.pos m * 2 ^ e) ++ ".0")%string
  else
    let k := Z.to_nat (- e) in
    let all := pad_left (S k) (digits_of_Z (Z.pos m * 5 ^ (- e))) in
    let n := String.length all in
    let whole := substring 0 (n - k) all in
    let frac := substring (n - k) k all in
    let frac' := string_of_list_ascii
                   (rev (strip_trailing_zeros (rev (list_ascii_of_string frac)))) in
    (whole ++ "." ++ (if String.eqb frac' "" then "0" else frac'))%string.

(** Python's [str] of a float, on the floats whose exact expansion is the
    shortest one that reads back (at most 15 significant digits, written
    without an exponent). *)
Definition print_float (x : float) : string :=
  match Prim2SF x with
  | S754_zero s => if s then "-0.0" else "0.0"
  | S754_infinity s => if s then "-inf" else "inf"
  | S754_nan => "nan"
  | S754_finite s m e => ((if s then "-" else "") ++ exact_decimal m e)%string
  end.

(** The log text of an array: the elements between brackets (numpy also
    pads the columns). *)
Definition print_array (p : point) : string :=
  ("[" ++ join " " (map print_float (coords p)) ++ "]")%string.

(** [np.round(x, 2)]: multiply by 100, round to the nearest integer (ties
    to even), divide by 100.  A result that is zero keeps the sign of what
    was rounded. *)
Definition rint (y : float) : float :=
  if (abs y <? 0x1p52)%float
  then let r := if (y <? 0)%float then ((y - 0x1p52) + 0x1p52)%float
                else ((y + 0x1p52) - 0x1p52)%float in
       if (r =? 0)%float then (if get_sign y then (- 0)%float else 0%float) else r
  else y.

Definition round_2 (x : float) : float := (rint (x * 100) / 100)%float.

(** Libraries whose mesh reader, locator, solver and file writer answer as
    the given scripts say. *)
Definition libraries
    (mesh : string -> Outcome (list point * list face))
    (snap : point -> Outcome point)
    (solve : nat -> nat -> Outcome (option float * option (list point)))
    (write : string -> Outcome unit) : Libraries :=
  {| float_of_string := parse_float;
     str_float := print_float;
     str_array := print_array;
     round2 := round_2;
     read_mesh_from_file := mesh;
     signed_distance := fun p _ _ => snap p;
     geodesicDistance := fun _ _ s g => solve s g;
     write_html := fun _ out => write out |}.

(** A chat model that answers every query with [reply]. *)
Definition chat (reply : string) : AbstractLlmChat :=
  {| get_response := fun _ _ => Returned reply |}.

(** Scripts for the collaborators: a mesh reader that knows one file. *)
Definition mesh_file (vertices : list point) (faces : list face) (path : string)
  : Outcome (list point * list face) :=
  if String.eqb path "navmesh.txt" then Returned (vertices, faces)
  else Raised (PyExn "FileNotFoundError").

(** A locator that answers a finite query point with the point itself (the
    bench queries lie on the surface) and any other point with the origin. *)
Definition locator (p : point) : Outcome point :=
  Returned (if finite3 p then p else (0, 0, 0)%float).

Definition writes (out : string) : Outcome unit := Returned tt.

Definition disk_full (out : string) : Outcome unit := Raised (PyExn "OSError").

(** A solver for meshes whose components are single triangles or pairs of
    triangles sharing the edge between the two vertices asked for: the
    straight segment inside a component, length 0.0 and an empty path
    across components. *)
Definition solver (vertices : list point) (faces : list face) (s g : nat)
  : Outcome (option float * option (list point)) :=
  match nth_error vertices s, nth_error vertices g with
  | Some a, Some b =>
      if same_component faces s g
      then Returned (Some (linalg_norm (psub b a)), Some [b; a])
      else Returned (Some 0%float, Some [])
  | _, _ => Returned (None, None)
  end.

(** A 3 x 4 rectangle in the plane z = 0, split along the diagonal from
    vertex 0 to vertex 2. *)
Definition rectangle_vertices : list point :=
  [(0, 0, 0); (3, 0, 0); (3, 4, 0); (0, 4, 0)]%float.

Definition rectangle_faces : list face :=
  [(0, 1, 2); (0, 2, 3)]%Z.

(** Two triangles that share no vertex. *)
Definition islands_vertices : list point :=
  [(0, 0, 0); (1, 0, 0); (0, 1, 0); (5, 0, 0); (6, 0, 0); (5, 1, 0)]%float.

Definition islands_faces : list face :=
  [(0, 1, 2); (3, 4, 5)]%Z.

(** Two triangles over the edge from (1,0,0) to (0,1,0); their third
    vertices, 0 and 1, are 2^-600 apart. *)
Definition sliver_vertices : list point :=
  [(0x1p-600, 0, 0); (0, 0, 0); (1, 0, 0); (0, 1, 0)]%float.

Definition sliver_faces : list face :=
  [(0, 2, 3); (1, 2, 3)]%Z.

(** The libraries of the bench over a mesh, with a file writer. *)
Definition libs (vertices : list point) (faces : list face)
    (write : string -> Outcome unit) : Libraries :=
  libraries (mesh_file vertices faces) locator (solver vertices faces) write.

(** Libraries over a mesh whose locator reports the surface point [c],
    whatever the query. *)
Definition reporting (c : point) (vertices : list point) (faces : list face)
  : Libraries :=
  libraries (mesh_file vertices faces) (fun _ => Returned c) (solver vertices faces) writes.

Definition plugin (vertices : list point) (faces : list face)
    (reply : string) (vis_dirpath : option string) : Store :=
  {| self := {| _vertices := vertices; _faces := faces;
                _llm_chat := chat reply; _vis_dirpath := vis_dirpath |};
     events := [] |}.

(** The three meshes with their libraries and a freshly built plugin. *)
Definition rectangle_libs (write : string -> Outcome unit) : Libraries :=
  libs rectangle_vertices rectangle_faces write.

Definition rectangle_plugin (reply : string) (vis_dirpath : option string) : Store :=
  plugin rectangle_vertices rectangle_faces reply vis_dirpath.

Definition islands_libs : Libraries := libs islands_vertices islands_faces writes.

Definition islands_plugin (vis_dirpath : option string) : Store :=
  plugin islands_vertices islands_faces "" vis_dirpath.

(** The sliver with a locator that reports [c]: the origin, vertex 1, lies
    on both triangles' surface within 2^-600 of vertex 0. *)
Definition sliver_libs (c : point) : Libraries :=
  reporting c sliver_vertices sliver_faces.

Definition sliver_plugin : Store := plugin sliver_vertices sliver_faces "" None.

(** A triangle with its apex first: the foot (5,0,0) of the apex on the
    base is at distance 5 from all three vertices, and the point (5,-10,0)
    below the base is nearer to the base's ends than to the apex. *)
Definition tent_vertices : list point :=
  [(5, 5, 0); (0, 0, 0); (10, 0, 0)]%float.

Definition tent_faces : list face := [(0, 1, 2)%Z].

Definition tent_libs : Libraries := reporting (5, 0, 0)%float tent_vertices tent_faces.

Definition tent_plugin : Store := plugin tent_vertices tent_faces "" None.

(** Two triangles in the plane z = 0 over the base from (-5,0,0) to
    (0,-5,0); their tips, vertices 0 and 1, are 2^-600 apart, and the origin
    lies on the edge from vertex 1 to vertex 2. *)
Definition kite_vertices : list point :=
  [(1, 0x1p-600, 0); (1, 0, 0); (-5, 0, 0); (0, -5, 0)]%float.

Definition kite_faces : list face :=
  [(0, 2, 3); (1, 2, 3)]%Z.

Definition kite_libs : Libraries := reporting (0, 0, 0)%float kite_vertices kite_faces.

Definition kite_plugin : Store := plugin kite_vertices kite_faces "" None.

End Bench.

(** ** core/interfaces.py and plugins/plugins_factory.py *)

(** [AbstractLlmChatFactory]: [get_llm_chat] hands out a chat, or raises. *)
Record AbstractLlmChatFactory : Type := {
  get_llm_chat : Outcome AbstractLlmChat
}.

(** [PluginsFactory], over whatever the model factory is: the navigation
    plugin does not use it. *)
Record PluginsFactory (ModelFactory : Type) : Type := {
  _model_factory : ModelFactory;
  _chat_model_factory : AbstractLlmChatFactory
}.

Arguments _model_factory {ModelFactory} p.
Arguments _chat_model_factory {ModelFactory} p.

(** [PluginsFactory.get_nav_plugin]: the chat first, then the plugin. *)
Definition get_nav_plugin {ModelFactory : Type} (L : Libraries)
    (factory : PluginsFactory ModelFactory)
    (navmesh_path : string) (vis_dir_path : option string) : Outcome NavPlugin :=
  obind (get_llm_chat (_chat_model_factory factory)) (fun chat =>
    NavPlugin_init L navmesh_path chat vis_dir_path).

(** ** core/config_handler.py *)

(** A Python dict with string keys, in insertion order: a key occurs once. *)
Definition dict (V : Type) : Type := list (string * V).

(** [d.get(key)], [None] when the key is missing. *)
Fixpoint dict_get {V : Type} (key : string) (d : dict V) : option V :=
  match d with
  | [] => None
  | (k, v) :: rest => if String.eqb k key then Some v else dict_get key rest
  end.

(** [d[key] = value]: the value of a key already there is replaced in
    place, a new key goes to the end. *)
Fixpoint dict_set {V : Type} (key : string) (value : V) (d : dict V) : dict V :=
  match d with
  | [] => [(key, value)]
  | (k, v) :: rest =>
      if String.eqb k key then (k, value) :: rest
      else (k, v) :: dict_set key value rest
  end.

Inductive ConfigPrefix : Type := TEXT | IMAGES | NAVIGATION | SQL | CHAT.

(** [params_type.value]. *)
Definition prefix_value (p : ConfigPrefix) : string :=
  match p with
  | TEXT => "TEXT"
  | IMAGES => "IMG"
  | NAVIGATION => "NAV"
  | SQL => "SQL"
  | CHAT => "CHAT"
  end.

(** What the field [temperature] can hold: the float default, or whatever
    the dotenv file has under the key, a string or None. *)
Inductive temperature_value : Type :=
| TemperatureFloat (t : float)
| TemperatureRead (text : option string).

Record Config : Type := {
  api_key : option string;
  endpoint : option string;
  llm_deployment : option string;
  llm_model : option string;
  embed_deployment : option string;
  embed_model : option string;
  api_version : option string;
  temperature : temperature_value
}.

Record ConfigHandler : Type := {
  _config : dict (option string);
  _retrieved_configs : dict Config
}.

(** [ConfigHandler.__init__], given what [dotenv_values(env_file)] read. *)
Definition ConfigHandler_init (dotenv_values : dict (option string)) : ConfigHandler :=
  {| _config := dotenv_values; _retrieved_configs := [] |}.

(** [self._config.get(f"{prefix}{suffix}", None)]: a key without a value
    holds None. *)
Definition config_entry (config : dict (option string)) (prefix suffix : string)
  : option string :=
  match dict_get (prefix ++ suffix)%string config with
  | Some v => v
  | None => None
  end.

(** The [Config(...)] expression of [get_config]. *)
Definition read_config (config : dict (option string)) (prefix : string) : Config :=
  {| api_key := config_entry config prefix "_API_KEY";
     endpoint := config_entry config prefix "_ENDPOINT";
     llm_deployment := config_entry config prefix "_LLM_DEPLOYMENT_NAME";
     llm_model := config_entry config prefix "_LLM_MODEL_NAME";
     embed_deployment := config_entry config prefix "_EMBED_DEPLOYMENT_NAME";
     embed_model := config_entry config prefix "_EMBED_MODEL_NAME";
     api_version := config_entry config prefix "_API_VERSION";
     temperature :=
       match dict_get (prefix ++ "_TEMPERATURE")%string config with
       | Some v => TemperatureRead v
       | None => TemperatureFloat 0x1.999999999999ap-4
       end |}.

Definition KeyError : exn := PyExn "KeyError".

(** [ConfigHandler.get_config]: the configuration and the handler after the
    call. *)
Definition get_config (handler : ConfigHandler) (params_type : ConfigPrefix)
  : Outcome Config * ConfigHandler :=
  let value := prefix_value params_type in
  let handler' :=
    match dict_get value (_retrieved_configs handler) with
    | Some _ => handler
    | None =>
        let config := read_config (_config handler) value in
        {| _config := _config handler;
           _retrieved_configs := dict_set value config (_retrieved_configs handler) |}
    end in
  (match dict_get value (_retrieved_configs handler') with
   | Some config => Returned config
   | None => Raised KeyError
   end,
   handler').

(** A run of calls of [get_config], one after the other. *)
Fixpoint get_configs (handler : ConfigHandler) (calls : list ConfigPrefix)
  : list (Outcome Config) * ConfigHandler :=
  match calls with
  | [] => ([], handler)
  | p :: rest =>
      let '(o, handler') := get_config handler p in
      let '(os, handler'') := get_configs handler' rest in
      (o :: os, handler'')
  end.

(** ** More vocabulary *)

(** The calls of the chat model the events record: system message and
    query. *)
Definition chat_calls (evs : list event) : list (string * string) :=
  flat_map (fun e => match e with LlmCall s q => [(s, q)] | _ => [] end) evs.

(** The calls of the locator and of the solver the events record. *)
Definition geometry_calls (evs : list event) : list event :=
  filter is_snap_or_solve evs.

(** An index numpy accepts on an axis of length [n]. *)
Definition in_numpy_range (n : nat) (i : Z) : bool :=
  ((- Z.of_nat n <=? i)%Z && (i <? Z.of_nat n)%Z)%bool.

(** Every index of the face is one numpy accepts. *)
Definition face_indexable (n : nat) (f : face) : bool :=
  forallb (in_numpy_range n) (face_vertices f).

(** Some coordinate of the point is NaN. *)
Definition has_nan (p : point) : bool :=
  is_nan (px p) || is_nan (py p) || is_nan (pz p).

(** The response without its parentheses. *)
Definition without_parentheses (response : string) : string :=
  remove_char ")" (remove_char "(" response).

(** Every configuration in the cache is the one the dotenv values give. *)
Definition cache_coherent (handler : ConfigHandler) : Prop :=
  forall key config,
    dict_get key (_retrieved_configs handler) = Some config ->
    config = read_config (_config handler) key.

(** The name a trace carries in the legend; the mesh has none. *)
Definition trace_name (t : plot_trace) : string :=
  match t with
  | Mesh3d _ _ _ _ _ _ _ => ""
  | Scatter3dLines _ _ _ _ name => name
  | Scatter3dMarkers _ _ _ _ name => name
  end.

(** ** Distances, as the specification words them *)

(** The Euclidean distance from [a] to [b] as float64 arithmetic computes
    it: the square root of the sum of the squares of the coordinate
    differences. *)
Definition euclidean_distance (a b : point) : float :=
  match a, b with
  | (x1, y1, z1), (x2, y2, z2) =>
      PrimFloat.sqrt ((x2 - x1) * (x2 - x1) + (y2 - y1) * (y2 - y1)
                      + (z2 - z1) * (z2 - z1))%float
  end.

(** The exact value of a finite float64, a rational number. *)
Definition exact (x : float) : option QArith_base.Q :=
  match Prim2SF x with
  | S754_zero _ => Some (QArith_base.inject_Z 0)
  | S754_finite s m e =>
      Some (QArith_base.Qmult (QArith_base.inject_Z (cond_Zopp s (Z.pos m)))
                              (QArith_base.Qpower (QArith_base.inject_Z 2) e))
  | _ => None
  end.

(** The exact square of the Euclidean distance between two finite points. *)
Definition exact_square_distance (a b : point) : option QArith_base.Q :=
  match map exact (coords a), map exact (coords b) with
  | [Some x1; Some y1; Some z1], [Some x2; Some y2; Some z2] =>
      let square d := QArith_base.Qmult d d in
      Some (QArith_base.Qplus
              (QArith_base.Qplus (square (QArith_base.Qminus x2 x1))
                                 (square (QArith_base.Qminus y2 y1)))
              (square (QArith_base.Qminus z2 z1)))
  | _, _ => None
  end.

(** In exact arithmetic, [v] is strictly closer to [c] than [w] is. *)
Definition strictly_closer (c v w : point) : Prop :=
  match exact_square_distance c v, exact_square_distance c w with
  | Some dv, Some dw => QArith_base.Qlt dv dw
  | _, _ => False
  end.

(** ** More of the bench *)

Module Cases.

(** A chat model that is out of reach. *)
Definition broken_chat : AbstractLlmChat :=
  {| get_response := fun _ _ => Raised (PyExn "APIConnectionError") |}.

Definition broken_plugin (vis_dirpath : option string) : Store :=
  {| self := {| _vertices := Bench.rectangle_vertices;
                _faces := Bench.rectangle_faces;
                _llm_chat := broken_chat; _vis_dirpath := vis_dirpath |};
     events := [] |}.

(** Libraries over the rectangle whose locator answers every query point
    with the point itself, finite or not. *)
Definition echo_libs : Libraries :=
  Bench.libraries (Bench.mesh_file Bench.rectangle_vertices Bench.rectangle_faces)
    (fun p => Returned p)
    (Bench.solver Bench.rectangle_vertices Bench.rectangle_faces) Bench.writes.

(** A factory whose chat answers every query with [reply]. *)
Definition factory (reply : string) : PluginsFactory unit :=
  {| _model_factory := tt;
     _chat_model_factory := {| get_llm_chat := Returned (Bench.chat reply) |} |}.

(** A dotenv file with the chat's endpoint and a temperature for SQL. *)
Definition dotenv : dict (option string) :=
  [("CHAT_ENDPOINT", Some "https://example.openai.azure.com");
   ("CHAT_LLM_DEPLOYMENT_NAME", Some "gpt-4");
   ("SQL_TEMPERATURE", Some "0.0");
   ("NAV_API_KEY", None)].

End Cases.

(** * Facts *)

(** ** The coordinate parser *)

Lemma array_of_strings_returned (L : Libraries) (fields : list string) (values : list float) :
  array_of_strings L fields = Returned values <->
  Forall2 (fun s x => float_of_string L s = Some x) fields values.
Proof.
  revert values. induction fields as [|f fields IH]; intros values; simpl.
  - split.
    + intros H. injection H as <-. constructor.
    + intros H. inversion H. reflexivity.
  - destruct (float_of_string L f) as [x|] eqn:Ef.
    + destruct (array_of_strings L fields) as [xs|e] eqn:Er; simpl.
      * split.
        -- intros H. injection H as <-. constructor; [exact Ef | now apply IH].
        -- intros H. inversion H as [|? y ? ys Hy Hys]; subst.
           rewrite Ef in Hy. injection Hy as <-.
           apply IH in Hys. injection Hys as <-. reflexivity.
      * split; [discriminate|].
        intros H. inversion H as [|? y ? ys Hy Hys]; subst.
        apply IH in Hys. discriminate.
    + split; [discriminate|].
      intros H. inversion H as [|? y ? ys Hy Hys]; subst. congruence.
Qed.

Lemma reshape3_rows_bounded (n : nat) (xs : list float) (rows : list point) :
  List.length xs <= n ->
  reshape3 xs = Returned rows ->
  List.length xs = 3 * List.length rows /\ xs = flat_map coords rows.
Proof.
  revert xs rows. induction n as [|n IH]; intros xs rows Hn H.
  - destruct xs; [|simpl in Hn; lia].
    injection H as <-. split; reflexivity.
  - destruct xs as [|x [|y [|z rest]]]; simpl in H; try discriminate.
    + injection H as <-. split; reflexivity.
    + destruct (reshape3 rest) as [rows'|e] eqn:Er; [|discriminate].
      injection H as <-.
      destruct (IH rest rows') as [Hl Hf]; [simpl in Hn; lia | exact Er |].
      split; simpl; [lia | now rewrite <- Hf].
Qed.

Lemma reshape3_rows (xs : list float) (rows : list point) :
  reshape3 xs = Returned rows ->
  List.length xs = 3 * List.length rows /\ xs = flat_map coords rows.
Proof. apply (reshape3_rows_bounded (List.length xs)). lia. Qed.

Lemma reshape3_multiple (k : nat) (xs : list float) :
  List.length xs = 3 * k ->
  exists rows, reshape3 xs = Returned rows /\ List.length rows = k.
Proof.
  revert xs. induction k as [|k IH]; intros xs H.
  - destruct xs; [|discriminate]. exists []. split; reflexivity.
  - destruct xs as [|x [|y [|z rest]]]; simpl in H; try lia.
    destruct (IH rest) as [rows [Hr Hl]]; [lia|].
    exists ((x, y, z) :: rows). simpl. rewrite Hr. split; [reflexivity | simpl; lia].
Qed.

Lemma positions_of_two_triples (L : Libraries) (response : string)
    (values : list float) (k : nat) :
  response <> "None" ->
  fields_parse L response values ->
  List.length values = 3 * k -> 2 <= k ->
  exists first second rest,
    values = coords first ++ coords second ++ rest /\
    positions_of L response = (Some first, Some second).
Proof.
  intros Hs Hp Hl Hk.
  unfold positions_of, parsed_rows.
  destruct (String.eqb_spec response "None") as [->|_]; [congruence|].
  apply array_of_strings_returned in Hp. rewrite Hp. simpl.
  destruct (reshape3_multiple k values Hl) as [rows [Hr Hlen]].
  rewrite Hr.
  destruct rows as [|first [|second rows]]; simpl in Hlen; try lia.
  apply reshape3_rows in Hr. destruct Hr as [_ Hf].
  exists first, second, (flat_map coords rows). split; [exact Hf | reflexivity].
Qed.

Lemma positions_of_found (L : Libraries) (response : string) (first second : point) :
  positions_of L response = (Some first, Some second) ->
  response <> "None" /\ holds_two_triples L response.
Proof.
  unfold positions_of, parsed_rows.
  destruct (String.eqb_spec response "None") as [->|Hs]; [discriminate|].
  destruct (array_of_strings L (response_fields response)) as [values|e] eqn:Ea;
    simpl; [|discriminate].
  destruct (reshape3 values) as [rows|e] eqn:Er; [|discriminate].
  destruct rows as [|a [|b rows]]; try discriminate.
  intros _. split; [exact Hs|].
  apply reshape3_rows in Er. destruct Er as [Hl _].
  exists values, (S (S (List.length rows))). repeat split.
  - now apply array_of_strings_returned.
  - exact Hl.
  - lia.
Qed.

Lemma positions_of_shape (L : Libraries) (response : string) :
  positions_of L response = (None, None) \/
  exists first second, positions_of L response = (Some first, Some second).
Proof.
  unfold positions_of.
  destruct (String.eqb response "None"); [now left|].
  destruct (parsed_rows L response) as [[|a [|b rows]]|e]; try now left.
  right. now exists a, b.
Qed.

Lemma positions_of_failed (L : Libraries) (response : string) :
  response = "None" \/ ~ holds_two_triples L response ->
  positions_of L response = (None, None).
Proof.
  intros H.
  destruct (positions_of_shape L response) as [E|[a [b E]]]; [exact E|].
  apply positions_of_found in E. destruct E as [Hs Hh].
  destruct H as [H|H]; contradiction.
Qed.

Lemma getitem_nat {A : Type} (a : list A) (i : nat) :
  getitem a (Z.of_nat i) =
    match nth_error a i with
    | Some x => Returned x
    | None => Raised IndexError
    end.
Proof.
  unfold getitem.
  destruct (Z.ltb_spec (Z.of_nat i) 0) as [H|_]; [lia|].
  destruct (Z.leb_spec 0 (Z.of_nat i)) as [_|H]; [|lia].
  rewrite Nat2Z.id. cbn [andb].
  destruct (Z.ltb_spec (Z.of_nat i) (Z.of_nat (List.length a))) as [H|H].
  - reflexivity.
  - destruct (nth_error a i) eqn:E; [|reflexivity].
    assert (i < List.length a) by (apply nth_error_Some; congruence). lia.
Qed.

(** Closes a goal that asks for the events a finished run has added. *)
Ltac close_run :=
  cbn [self events fst snd];
  repeat (eexists || split);
  rewrite <- ?app_assoc; reflexivity.

(** [_nl_to_numpy] returns [positions_of] the chat model's response, keeps
    the plugin object, and adds only log lines and the chat call. *)
Lemma nl_to_numpy_run (L : Libraries) (q : string) (st : Store) (response : string) :
  get_response (_llm_chat (self st)) NAV_SYSTEM_PROMPT q = Returned response ->
  exists new,
    _nl_to_numpy L q st =
      (Returned (positions_of L response),
       {| self := self st; events := events st ++ new |}) /\
    forallb (fun e => negb (is_visualization e) && negb (is_snap_or_solve e)) new = true.
Proof.
  intros Hr.
  unfold _nl_to_numpy, positions_of, parsed_rows, response_fields.
  change 0%Z with (Z.of_nat 0). change 1%Z with (Z.of_nat 1).
  unfold bind, logger_info, emit, get_self, lift, ret, try_except.
  cbn [self events fst snd].
  rewrite Hr.
  destruct (String.eqb response "None").
  - close_run.
  - destruct (array_of_strings L _) as [values|e]; cbn [obind].
    + destruct (reshape3 values) as [rows|e].
      * rewrite !getitem_nat.
        destruct rows as [|a [|b rows]]; cbn [nth_error]; close_run.
      * close_run.
    + close_run.
Qed.

(** The navigable-distance query, once the chat model has answered: the
    fallback, or what [_get_navigable_distance] does on the two positions. *)
Lemma actual_distance_run (L : Libraries) (q : string) (st : Store) (response : string) :
  get_response (_llm_chat (self st)) NAV_SYSTEM_PROMPT q = Returned response ->
  exists new,
    fst (get_actual_distance_from_query L q st) =
      match positions_of L response with
      | (Some start, Some goal) =>
          fst (_get_navigable_distance L start goal
                 {| self := self st; events := events st ++ new |})
      | _ => Returned extraction_failed_message
      end.
Proof.
  intros Hr.
  unfold get_actual_distance_from_query.
  unfold bind at 1. unfold logger_info at 1, emit at 1.
  unfold bind at 1.
  destruct (nl_to_numpy_run L q
              {| self := self st;
                 events := events st ++ [LogInfo "Calling the navigable distance function."] |}
              response Hr) as [new [E _]].
  cbn [self events] in E. rewrite <- app_assoc in E. rewrite E.
  exists ([LogInfo "Calling the navigable distance function."] ++ new).
  destruct (positions_of L response) as [[start|] [goal|]];
    try (unfold bind, ret, logger_info, emit; reflexivity).
  unfold bind at 1.
  destruct (_get_navigable_distance L start goal _) as [[r|e] st2]; reflexivity.
Qed.


(** C10: for a response of the chat model other than the sentinel, the
    coordinate parser [_nl_to_numpy] succeeds exactly when the response,
    without its parentheses, splits at the commas into 3k float-parseable
    values with k >= 2; it then returns the first two triples and ignores
    the rest; otherwise (one triple only, a number of values that is not a
    multiple of three, a value that is no float) it returns the pair
    (None, None) and raises nothing. *)
Theorem nl_to_numpy_parses_two_triples
    (L : Libraries) (q : string) (st : Store) (response : string) :
  get_response (_llm_chat (self st)) NAV_SYSTEM_PROMPT q = Returned response ->
  response <> "None" ->
  (holds_two_triples L response <->
   exists first second,
     fst (_nl_to_numpy L q st) = Returned (Some first, Some second)) /\
  (forall values k,
     fields_parse L response values -> List.length values = 3 * k -> 2 <= k ->
     exists first second rest,
       values = coords first ++ coords second ++ rest /\
       fst (_nl_to_numpy L q st) = Returned (Some first, Some second)) /\
  (~ holds_two_triples L response ->
   fst (_nl_to_numpy L q st) = Returned (None, None)).
Proof.
  intros Hr Hs.
  destruct (nl_to_numpy_run L q st response Hr) as [new [E _]].
  rewrite E. cbn [fst].
  split; [split|split].
  - intros [values [k [Hp [Hl Hk]]]].
    destruct (positions_of_two_triples L response values k Hs Hp Hl Hk)
      as [first [second [rest [_ Hpos]]]].
    exists first, second. now rewrite Hpos.
  - intros [first [second H]]. injection H as H.
    now apply positions_of_found in H.
  - intros values k Hp Hl Hk.
    destruct (positions_of_two_triples L response values k Hs Hp Hl Hk)
      as [first [second [rest [Hv Hpos]]]].
    exists first, second, rest. split; [exact Hv | now rewrite Hpos].
  - intros Hn. rewrite positions_of_failed; [reflexivity | now right].
Qed.


(** ** The locator, the visualizer and the navigable-distance computation *)

Lemma snap_run (L : Libraries) (p : point) (st : Store) :
  _snap_to_closest_vertex L p st =
    (snap_outcome L (self st) p, log_event st [SignedDistanceCall p]).
Proof.
  unfold _snap_to_closest_vertex, snap_outcome, vertex_distances, log_event.
  unfold bind, get_self, emit, lift, ret, obind. cbn [self events].
  destruct (signed_distance L p _ _) as [c|e]; [|reflexivity].
  destruct (argmin _) as [i|e]; [|reflexivity].
  destruct (getitem _ _) as [cv|e]; reflexivity.
Qed.

Lemma visualize_run (L : Libraries) (vertices : list point) (faces : list face)
    (out : string) (waypoints : option (list point))
    (points : list (string * (point * string))) (st : Store) :
  visualize_navmesh_3d L vertices faces out waypoints points st =
    (visualize_outcome L vertices faces out waypoints points,
     log_event st match figure_of vertices faces waypoints points with
                  | Returned fig => [WriteHtmlCall out fig]
                  | Raised _ => []
                  end).
Proof.
  unfold visualize_navmesh_3d, visualize_outcome, figure_of, log_event.
  unfold bind, emit, lift, ret, obind. cbn [self events].
  destruct st as [me evs]. cbn [self events].
  destruct (scan_faces _ _ _) as [scan|e]; [|now rewrite app_nil_r].
  destruct (concatenate _) as [rows|e]; [|now rewrite app_nil_r].
  destruct (unpack_columns rows) as [[[x y] z]|e]; [|now rewrite app_nil_r].
  cbn [fst snd].
  destruct waypoints as [w|].
  - destruct (unpack_columns w) as [[[wx wy] wz]|e]; [|now rewrite app_nil_r].
    reflexivity.
  - reflexivity.
Qed.

Lemma navigable_run (L : Libraries) (start goal : point) (st : Store) :
  _get_navigable_distance L start goal st =
    (fst (navigable_outcome L (self st) start goal),
     log_event st (snd (navigable_outcome L (self st) start goal))).
Proof.
  unfold _get_navigable_distance, navigable_outcome.
  unfold bind at 1. unfold get_self at 1.
  unfold bind at 1. rewrite snap_run.
  destruct (snap_outcome L (self st) start) as [[[closest_s closest_v_s] vid_s]|e];
    [|reflexivity].
  unfold bind at 1. rewrite snap_run. cbn [self log_event].
  destruct (snap_outcome L (self st) goal) as [[[closest_g closest_v_g] vid_g]|e];
    [|unfold log_event; cbn [self events fst snd]; now rewrite <- app_assoc].
  unfold bind at 1. unfold emit at 1. cbn [self events].
  unfold bind at 1. unfold lift at 1.
  destruct (geodesicDistance L _ _ vid_s vid_g) as [[dist path]|e];
    [|unfold log_event; cbn [self events fst snd]; now rewrite <- !app_assoc].
  destruct (_vis_dirpath (self st)) as [dir|].
  - unfold bind at 1. unfold logger_info, emit. cbn [self events].
    unfold bind at 1. rewrite visualize_run.
    fold (markers start goal closest_s closest_g closest_v_s closest_v_g).
    fold (vis_filename L dir start goal).
    fold (answer_of L dist path).
    unfold log_event. cbn [self events fst snd].
    destruct (visualize_outcome L _ _ _ _ _) as [[]|e];
      cbn [obind]; unfold ret; cbn [self events]; now rewrite <- !app_assoc.
  - unfold ret, log_event. cbn [fst snd self events]. now rewrite <- !app_assoc.
Qed.

(** ** The plugin object is read, never written *)

Lemma keeps_self_ret {A : Type} (a : A) : keeps_self (ret a).
Proof. intros st. reflexivity. Qed.

Lemma keeps_self_raise {A : Type} (e : exn) : keeps_self (@raise A e).
Proof. intros st. reflexivity. Qed.

Lemma keeps_self_lift {A : Type} (o : Outcome A) : keeps_self (lift o).
Proof. intros st. reflexivity. Qed.

Lemma keeps_self_emit (e : event) : keeps_self (emit e).
Proof. intros st. reflexivity. Qed.

Lemma keeps_self_get_self : keeps_self get_self.
Proof. intros st. reflexivity. Qed.

Lemma keeps_self_bind {A B : Type} (m : M A) (k : A -> M B) :
  keeps_self m -> (forall a, keeps_self (k a)) -> keeps_self (bind m k).
Proof.
  intros Hm Hk st. unfold bind.
  specialize (Hm st). destruct (m st) as [[a|e] st1]; cbn [snd] in *.
  - now rewrite Hk.
  - exact Hm.
Qed.

Lemma keeps_self_try_except {A : Type} (body : M A) (handler : exn -> M A) :
  keeps_self body -> (forall e, keeps_self (handler e)) ->
  keeps_self (try_except body handler).
Proof.
  intros Hb Hh st. unfold try_except.
  specialize (Hb st). destruct (body st) as [[a|e] st1]; cbn [snd] in *.
  - exact Hb.
  - now rewrite Hh.
Qed.

Create HintDb frame.
#[local] Hint Resolve keeps_self_ret keeps_self_raise keeps_self_lift keeps_self_emit
  keeps_self_get_self : frame.

(** Walks through a method, one statement at a time. *)
Ltac frame :=
  repeat first
    [ solve [auto with frame]
    | apply keeps_self_bind; [|intros ?]
    | apply keeps_self_try_except; [|intros ?]
    | match goal with
      | |- keeps_self (match ?x with _ => _ end) => destruct x
      | |- keeps_self (if ?b then _ else _) => destruct b
      end ].

Lemma nl_to_numpy_keeps_self (L : Libraries) (q : string) :
  keeps_self (_nl_to_numpy L q).
Proof. unfold _nl_to_numpy, logger_info. frame. Qed.

Lemma snap_keeps_self (L : Libraries) (p : point) :
  keeps_self (_snap_to_closest_vertex L p).
Proof. unfold _snap_to_closest_vertex. frame. Qed.

Lemma visualize_keeps_self (L : Libraries) (vertices : list point) (faces : list face)
    (out : string) (waypoints : option (list point))
    (points : list (string * (point * string))) :
  keeps_self (visualize_navmesh_3d L vertices faces out waypoints points).
Proof. unfold visualize_navmesh_3d. frame. Qed.

Lemma navigable_keeps_self (L : Libraries) (start goal : point) :
  keeps_self (_get_navigable_distance L start goal).
Proof.
  unfold _get_navigable_distance, logger_info. cbv zeta.
  apply keeps_self_bind; [frame|intros me].
  apply keeps_self_bind; [apply snap_keeps_self|intros [[? ?] ?]].
  apply keeps_self_bind; [apply snap_keeps_self|intros [[? ?] ?]].
  apply keeps_self_bind; [frame|intros _].
  apply keeps_self_bind; [frame|intros [dist path]].
  destruct (_vis_dirpath me); [|frame].
  apply keeps_self_bind; [frame|intros _].
  apply keeps_self_bind; [apply visualize_keeps_self|intros _].
  frame.
Qed.

(** C9: the vertex and face arrays are those read from the mesh file when
    the plugin is constructed, and no later operation (either query, the
    navigable-distance computation, the snapping, the visualization)
    changes the plugin object, whatever the collaborators answer. *)
Theorem mesh_is_set_once_and_kept (L : Libraries) :
  (forall path chat vis me,
     NavPlugin_init L path chat vis = Returned me ->
     read_mesh_from_file L path = Returned (_vertices me, _faces me)) /\
  (forall q, keeps_self (get_actual_distance_from_query L q)) /\
  (forall q, keeps_self (get_straight_line_distance_from_query L q)) /\
  (forall start goal, keeps_self (_get_navigable_distance L start goal)) /\
  (forall p, keeps_self (_snap_to_closest_vertex L p)) /\
  (forall vertices faces out waypoints points,
     keeps_self (visualize_navmesh_3d L vertices faces out waypoints points)).
Proof.
  repeat split.
  - intros path chat vis me. unfold NavPlugin_init.
    destruct (read_mesh_from_file L path) as [[vs fs]|e]; cbn [obind fst snd];
      [|discriminate].
    intros H. injection H as <-. reflexivity.
  - intros q. unfold get_actual_distance_from_query, logger_info.
    apply keeps_self_bind; [frame|intros _].
    apply keeps_self_bind; [apply nl_to_numpy_keeps_self|intros [start goal]].
    apply keeps_self_bind; [|intros r; frame].
    destruct start, goal; try (frame; fail). apply navigable_keeps_self.
  - intros q. unfold get_straight_line_distance_from_query, logger_info.
    apply keeps_self_bind; [frame|intros _].
    apply keeps_self_bind; [apply nl_to_numpy_keeps_self|intros [start goal]].
    frame.
  - intros start goal. apply navigable_keeps_self.
  - intros p. apply snap_keeps_self.
  - intros. apply visualize_keeps_self.
Qed.

(** ** Effects of the navigable-distance computation *)

Lemma snap_outcome_fst (L : Libraries) (p : point) (st : Store) :
  fst (_snap_to_closest_vertex L p st) = snap_outcome L (self st) p.
Proof. now rewrite snap_run. Qed.

Lemma visualize_outcome_fst (L : Libraries) (vertices : list point) (faces : list face)
    (out : string) (waypoints : option (list point))
    (points : list (string * (point * string))) (st : Store) :
  fst (visualize_navmesh_3d L vertices faces out waypoints points st) =
    visualize_outcome L vertices faces out waypoints points.
Proof. now rewrite visualize_run. Qed.

(** C2 (as amended): when the plugin has no visualization directory, the
    navigable-distance computation writes no file and no log line: the
    events it adds are the calls of the locator and of the solver only.
    When a directory is configured, the computation itself calls the
    visualizer: whenever it returns, a figure has been handed to
    [write_html] under the file name built from the rounded points. *)
Theorem navigable_distance_visualizes_when_configured
    (L : Libraries) (start goal : point) (st : Store) :
  (_vis_dirpath (self st) = None ->
   exists calls,
     events (snd (_get_navigable_distance L start goal st)) = events st ++ calls /\
     forallb is_snap_or_solve calls = true) /\
  (forall dir r st',
     _vis_dirpath (self st) = Some dir ->
     _get_navigable_distance L start goal st = (Returned r, st') ->
     exists fig,
       In (WriteHtmlCall (vis_filename L dir start goal) fig) (events st')).
Proof.
  rewrite navigable_run. unfold navigable_outcome. split.
  - intros Hvis. rewrite Hvis. cbn [snd log_event events].
    destruct (snap_outcome L (self st) start) as [[[cs cvs] s]|e];
      [|eexists; split; reflexivity].
    destruct (snap_outcome L (self st) goal) as [[[cg cvg] g]|e];
      [|eexists; split; reflexivity].
    destruct (geodesicDistance L _ _ s g) as [[dist path]|e];
      eexists; split; reflexivity.
  - intros dir r st' Hvis. rewrite Hvis.
    destruct (snap_outcome L (self st) start) as [[[cs cvs] s]|e]; [|discriminate].
    destruct (snap_outcome L (self st) goal) as [[[cg cvg] g]|e]; [|discriminate].
    destruct (geodesicDistance L _ _ s g) as [[dist path]|e]; [|discriminate].
    cbv zeta. unfold visualize_outcome. cbn [fst snd].
    destruct (figure_of _ _ _ _) as [fig|e]; cbn [obind]; [|discriminate].
    intros H. injection H as _ <-. exists fig.
    unfold log_event. cbn [events]. apply in_or_app. right.
    cbn [app In]. auto 10.
Qed.

(** C3 (as amended): the navigable-distance computation does not check its
    points: for every pair of points, finite or not, it first calls the
    locator on the start point; it raises only an exception that the
    locator, the solver or the visualizer raised (an empty vertex array
    makes the argmin raise), so no failure of its own reports an invalid
    input; and when locator and solver answer and no visualization
    directory is configured it returns an answer. *)
Theorem navigable_distance_proceeds_without_validation
    (L : Libraries) (start goal : point) (st : Store) :
  (exists rest,
     events (snd (_get_navigable_distance L start goal st)) =
       events st ++ SignedDistanceCall start :: rest) /\
  (forall e,
     fst (_get_navigable_distance L start goal st) = Raised e ->
     fst (_snap_to_closest_vertex L start st) = Raised e \/
     fst (_snap_to_closest_vertex L goal st) = Raised e \/
     (exists s g,
        geodesicDistance L (_vertices (self st)) (_faces (self st)) s g = Raised e) \/
     (exists out path points,
        fst (visualize_navmesh_3d L (_vertices (self st)) (_faces (self st))
               out path points st) = Raised e)) /\
  (forall cs cvs s cg cvg g dist path,
     fst (_snap_to_closest_vertex L start st) = Returned (cs, cvs, s) ->
     fst (_snap_to_closest_vertex L goal st) = Returned (cg, cvg, g) ->
     geodesicDistance L (_vertices (self st)) (_faces (self st)) s g =
       Returned (dist, path) ->
     _vis_dirpath (self st) = None ->
     fst (_get_navigable_distance L start goal st) = Returned (answer_of L dist path)).
Proof.
  rewrite navigable_run, !snap_outcome_fst. unfold navigable_outcome.
  cbn [fst snd log_event events].
  split; [|split].
  - destruct (snap_outcome L (self st) start) as [[[cs cvs] s]|e];
      [|eexists; reflexivity].
    destruct (snap_outcome L (self st) goal) as [[[cg cvg] g]|e];
      [|eexists; reflexivity].
    destruct (geodesicDistance L _ _ s g) as [[dist path]|e]; [|eexists; reflexivity].
    destruct (_vis_dirpath (self st)); eexists; reflexivity.
  - intros e.
    destruct (snap_outcome L (self st) start) as [[[cs cvs] s]|e1];
      [|intros H; injection H as <-; now left].
    destruct (snap_outcome L (self st) goal) as [[[cg cvg] g]|e1];
      [|intros H; injection H as <-; right; now left].
    destruct (geodesicDistance L _ _ s g) as [[dist path]|e1] eqn:Eg.
    + destruct (_vis_dirpath (self st)) as [dir|]; [|discriminate].
      cbn [fst].
      destruct (visualize_outcome L _ _ _ _ _) as [[]|e1] eqn:Ev; cbn [obind];
        [discriminate|].
      intros H. injection H as <-. right. right. right.
      eexists _, _, _. rewrite visualize_outcome_fst. exact Ev.
    + cbn [fst]. intros H. injection H as <-. right. right. left. now exists s, g.
  - intros cs cvs s cg cvg g dist path Hs Hg Hd Hvis.
    rewrite Hs, Hg, Hd, Hvis. reflexivity.
Qed.

(** C4 (as amended): with a visualization directory configured, once the
    locator and the solver have answered, the navigable-distance
    computation ends as the visualizer ends: it returns the answer when the
    visualizer returns, and raises the visualizer's exception when the
    visualizer raises. *)
Theorem visualizer_failure_propagates
    (L : Libraries) (start goal : point) (st : Store)
    (cs cvs cg cvg : point) (s g : nat)
    (dist : option float) (path : option (list point)) (dir : string) :
  fst (_snap_to_closest_vertex L start st) = Returned (cs, cvs, s) ->
  fst (_snap_to_closest_vertex L goal st) = Returned (cg, cvg, g) ->
  geodesicDistance L (_vertices (self st)) (_faces (self st)) s g =
    Returned (dist, path) ->
  _vis_dirpath (self st) = Some dir ->
  fst (_get_navigable_distance L start goal st) =
    match fst (visualize_navmesh_3d L (_vertices (self st)) (_faces (self st))
                 (vis_filename L dir start goal) path
                 (markers start goal cs cg cvs cvg) st) with
    | Returned _ => Returned (answer_of L dist path)
    | Raised e => Raised e
    end.
Proof.
  rewrite navigable_run, !snap_outcome_fst, visualize_outcome_fst.
  unfold navigable_outcome.
  intros Hs Hg Hd Hvis. rewrite Hs, Hg, Hd, Hvis. cbn [fst].
  destruct (visualize_outcome L _ _ _ _ _) as [[]|e]; reflexivity.
Qed.

(** C8 (as amended): when the solver reports no path between the two
    snapped vertices (no path object, or an empty path), whatever the cause,
    different connected components included, a navigable-distance
    computation that returns gives the one not-navigable answer; and it
    does return when no visualization directory is configured. *)
Theorem no_path_has_a_single_answer
    (L : Libraries) (start goal : point) (st : Store)
    (cs cvs cg cvg : point) (s g : nat)
    (dist : option float) (path : option (list point)) :
  fst (_snap_to_closest_vertex L start st) = Returned (cs, cvs, s) ->
  fst (_snap_to_closest_vertex L goal st) = Returned (cg, cvg, g) ->
  geodesicDistance L (_vertices (self st)) (_faces (self st)) s g =
    Returned (dist, path) ->
  path_found path = false ->
  (forall r, fst (_get_navigable_distance L start goal st) = Returned r ->
             r = not_navigable_message) /\
  (_vis_dirpath (self st) = None ->
   fst (_get_navigable_distance L start goal st) = Returned not_navigable_message).
Proof.
  rewrite navigable_run, !snap_outcome_fst. unfold navigable_outcome.
  intros Hs Hg Hd Hp. rewrite Hs, Hg, Hd. unfold answer_of. rewrite Hp. split.
  - intros r. destruct (_vis_dirpath (self st)) as [dir|]; cbn [fst].
    + destruct (visualize_outcome L _ _ _ _ _) as [[]|e]; cbn [obind];
        [|discriminate].
      intros H. now injection H as <-.
    + intros H. now injection H as <-.
  - intros Hvis. rewrite Hvis. reflexivity.
Qed.

(** ** The answers of the navigable-distance query *)

Lemma nl_to_numpy_raised (L : Libraries) (q : string) (st : Store) (e : exn) :
  get_response (_llm_chat (self st)) NAV_SYSTEM_PROMPT q = Raised e ->
  fst (_nl_to_numpy L q st) = Raised e.
Proof.
  intros Hr. unfold _nl_to_numpy.
  unfold bind, logger_info, emit, get_self, lift. cbn [self events].
  rewrite Hr. reflexivity.
Qed.

Lemma actual_distance_raised (L : Libraries) (q : string) (st : Store) (e : exn) :
  get_response (_llm_chat (self st)) NAV_SYSTEM_PROMPT q = Raised e ->
  fst (get_actual_distance_from_query L q st) = Raised e.
Proof.
  intros Hr. unfold get_actual_distance_from_query.
  unfold bind at 1. unfold logger_info at 1, emit at 1.
  unfold bind at 1.
  pose proof (nl_to_numpy_raised L q
                {| self := self st;
                   events := events st ++ [LogInfo "Calling the navigable distance function."] |}
                e Hr) as E.
  destruct (_nl_to_numpy L q _) as [o st1]. cbn [fst] in E. subst o. reflexivity.
Qed.

Lemma positions_of_none (L : Libraries) (response : string) :
  positions_of L response = (None, None) ->
  response = "None" \/ ~ holds_two_triples L response.
Proof.
  intros E.
  destruct (String.eqb_spec response "None") as [Hs|Hs]; [now left|].
  right. intros [values [k [Hp [Hl Hk]]]].
  destruct (positions_of_two_triples L response values k Hs Hp Hl Hk)
    as [first [second [rest [_ Hpos]]]].
  congruence.
Qed.

(** C5: every string the navigable-distance query returns is one of three
    texts.  It is the extraction-failure text when the chat model answered
    with the sentinel or with something that does not hold two triples.
    Otherwise the extraction gave a start and a goal, both were snapped and
    the solver was asked for the two snapped indices: the string is the
    distance text around the solver's length when the solver gave a path
    with at least one waypoint, and the not-navigable text when it gave no
    path or an empty one. *)
Theorem actual_distance_answers
    (L : Libraries) (q : string) (st : Store) (r : string) :
  fst (get_actual_distance_from_query L q st) = Returned r ->
  exists response,
    get_response (_llm_chat (self st)) NAV_SYSTEM_PROMPT q = Returned response /\
    (((response = "None" \/ ~ holds_two_triples L response) /\
      r = ("The query does not contain information about the objects' "
           ++ "positions or the positions could not be parsed.")%string) \/
     (exists start goal cs cvs s cg cvg g dist path,
        fst (_nl_to_numpy L q st) = Returned (Some start, Some goal) /\
        fst (_snap_to_closest_vertex L start st) = Returned (cs, cvs, s) /\
        fst (_snap_to_closest_vertex L goal st) = Returned (cg, cvg, g) /\
        geodesicDistance L (_vertices (self st)) (_faces (self st)) s g =
          Returned (dist, path) /\
        (((exists w ws, path = Some (w :: ws)) /\
          r = ("The distance between specified points is "
               ++ match dist with Some d => str_float L d | None => "None" end
               ++ " meters.")%string) \/
         ((path = None \/ path = Some []) /\
          r = "The path between specified objects is not navigable considering obstacles.")))).
Proof.
  intros Hrun.
  destruct (get_response (_llm_chat (self st)) NAV_SYSTEM_PROMPT q)
    as [response|e] eqn:Hr;
    [|rewrite (actual_distance_raised L q st e Hr) in Hrun; discriminate].
  exists response. split; [reflexivity|].
  destruct (actual_distance_run L q st response Hr) as [new Ea].
  rewrite Ea in Hrun. clear Ea.
  destruct (nl_to_numpy_run L q st response Hr) as [new' [En _]].
  destruct (positions_of_shape L response) as [E|[start [goal E]]];
    rewrite E in Hrun.
  - left. split; [now apply positions_of_none | now injection Hrun as <-].
  - right. rewrite navigable_run in Hrun. unfold navigable_outcome in Hrun.
    cbn [fst self] in Hrun.
    destruct (snap_outcome L (self st) start) as [[[cs cvs] s]|e] eqn:Es; [|discriminate].
    destruct (snap_outcome L (self st) goal) as [[[cg cvg] g]|e] eqn:Eg'; [|discriminate].
    destruct (geodesicDistance L _ _ s g) as [[dist path]|e] eqn:Eg; [|discriminate].
    exists start, goal, cs, cvs, s, cg, cvg, g, dist, path.
    rewrite En, !snap_outcome_fst, E.
    repeat (split; [first [reflexivity | assumption]|]).
    assert (r = answer_of L dist path) as ->.
    { destruct (_vis_dirpath (self st)) as [dir|]; cbn [fst] in Hrun.
      - destruct (visualize_outcome L _ _ _ _ _) as [[]|e]; cbn [obind] in Hrun;
          [|discriminate].
        now injection Hrun as <-.
      - now injection Hrun as <-. }
    unfold answer_of, path_found, distance_message, str_dist, not_navigable_message.
    destruct path as [[|w ws]|].
    + right. split; [now right | reflexivity].
    + left. split; [now exists w, ws | reflexivity].
    + right. split; [now left | reflexivity].
Qed.

(** ** binary64 comparisons *)

Ltac split_compare :=
  repeat match goal with
    | H : context [(?a ?= ?b)%Z] |- _ => destruct (Z.compare_spec a b)
    | |- context [(?a ?= ?b)%Z] => destruct (Z.compare_spec a b)
    | H : context [PosDef.Pos.compare_cont Eq ?a ?b] |- _ =>
        change (PosDef.Pos.compare_cont Eq a b) with (Pos.compare a b) in *;
        destruct (Pos.compare_spec a b)
    | |- context [PosDef.Pos.compare_cont Eq ?a ?b] =>
        change (PosDef.Pos.compare_cont Eq a b) with (Pos.compare a b) in *;
        destruct (Pos.compare_spec a b)
    end.

(** Decides a fact about [SFcompare] by cases on the operands. *)
Ltac sf_cases :=
  unfold SFltb, SFleb, SFeqb, SFcompare;
  repeat match goal with
    | x : spec_float |- _ => destruct x
    | s : bool |- _ => destruct s
    end;
  simpl; intros; try discriminate; try reflexivity; try congruence;
  split_compare; subst; simpl in *;
  try discriminate; try reflexivity; try congruence; try lia.

Lemma SFltb_leb_trans (a b c : spec_float) :
  SFltb a b = true -> SFleb b c = true -> SFltb a c = true.
Proof. sf_cases. Qed.

Lemma SFleb_false_ltb (a b : spec_float) :
  a <> S754_nan -> b <> S754_nan -> SFleb a b = false -> SFltb b a = true.
Proof. sf_cases. Qed.

Lemma SFltb_leb (a b : spec_float) : SFltb a b = true -> SFleb a b = true.
Proof. sf_cases. Qed.

Lemma SFleb_refl (a : spec_float) : a <> S754_nan -> SFleb a a = true.
Proof. sf_cases. Qed.

Lemma SFltb_irrefl (a : spec_float) : SFltb a a = false.
Proof. sf_cases. Qed.

Lemma SFleb_antisym (a b : spec_float) :
  SFleb a b = true -> SFleb b a = true -> SFeqb a b = true.
Proof. sf_cases. Qed.

Lemma is_nan_false (x : float) : is_nan x = false -> Prim2SF x <> S754_nan.
Proof.
  unfold is_nan. rewrite FloatAxioms.eqb_spec. intros H E. rewrite E in H. discriminate.
Qed.

Lemma is_nan_true (x : float) : Prim2SF x = S754_nan -> is_nan x = true.
Proof. intros E. unfold is_nan. rewrite FloatAxioms.eqb_spec, E. reflexivity. Qed.

Lemma ltb_leb_trans (a b c : float) :
  (a <? b)%float = true -> (b <=? c)%float = true -> (a <? c)%float = true.
Proof. rewrite !FloatAxioms.ltb_spec, FloatAxioms.leb_spec. apply SFltb_leb_trans. Qed.

Lemma leb_false_ltb (a b : float) :
  is_nan a = false -> is_nan b = false ->
  (a <=? b)%float = false -> (b <? a)%float = true.
Proof.
  intros Ha Hb. rewrite FloatAxioms.ltb_spec, FloatAxioms.leb_spec.
  apply SFleb_false_ltb; now apply is_nan_false.
Qed.

Lemma ltb_leb (a b : float) : (a <? b)%float = true -> (a <=? b)%float = true.
Proof. rewrite FloatAxioms.ltb_spec, FloatAxioms.leb_spec. apply SFltb_leb. Qed.

Lemma leb_refl (a : float) : is_nan a = false -> (a <=? a)%float = true.
Proof. intros Ha. rewrite FloatAxioms.leb_spec. apply SFleb_refl. now apply is_nan_false. Qed.

Lemma ltb_irrefl (a : float) : (a <? a)%float = false.
Proof. rewrite FloatAxioms.ltb_spec. apply SFltb_irrefl. Qed.

Lemma leb_antisym (a b : float) :
  (a <=? b)%float = true -> (b <=? a)%float = true -> (a =? b)%float = true.
Proof. rewrite !FloatAxioms.leb_spec, FloatAxioms.eqb_spec. apply SFleb_antisym. Qed.

(** A finite float minus itself is +0. *)
Lemma sub_self (x : float) : is_finite x = true -> (x - x)%float = 0%float.
Proof.
  intros H.
  rewrite <- (SF2Prim_Prim2SF (x - x)), FloatAxioms.sub_spec.
  unfold is_finite, is_nan, is_infinity in H.
  rewrite !FloatAxioms.eqb_spec, FloatAxioms.abs_spec in H.
  change (Prim2SF infinity) with (S754_infinity false) in H.
  destruct (Prim2SF x) as [s|s| |s m e].
  - destruct s; reflexivity.
  - destruct s; discriminate.
  - discriminate.
  - unfold SF64sub, SFsub. rewrite Z.sub_diag. reflexivity.
Qed.

(** A square root is NaN or not below zero. *)
Lemma SFsqrt_sign (x : spec_float) :
  SFsqrt prec emax x = S754_nan \/
  SFleb (S754_zero false) (SFsqrt prec emax x) = true.
Proof.
  destruct x as [s|[|]| |[|] m e]; try (now left); try (now right).
  unfold SFsqrt.
  destruct (SFsqrt_core_binary prec emax (Z.pos m) e) as [[mz ez] lz].
  unfold binary_round_aux.
  destruct (shr_fexp prec emax mz ez lz) as [mrs' e'].
  destruct (shr_fexp prec emax _ e' loc_Exact) as [mrs'' e''].
  destruct (shr_m mrs'').
  - now right.
  - right. destruct (e'' <=? emax - prec)%Z; reflexivity.
  - now left.
Qed.

Lemma sqrt_sign (x : float) :
  is_nan (PrimFloat.sqrt x) = true \/ (0 <=? PrimFloat.sqrt x)%float = true.
Proof.
  rewrite FloatAxioms.leb_spec.
  change (Prim2SF 0) with (S754_zero false).
  rewrite FloatAxioms.sqrt_spec.
  destruct (SFsqrt_sign (Prim2SF x)) as [H|H].
  - left. apply is_nan_true. now rewrite FloatAxioms.sqrt_spec.
  - now right.
Qed.

(** The computed distance of a finite point to itself is +0. *)
Lemma linalg_norm_self (p : point) :
  finite3 p = true -> linalg_norm (psub p p) = 0%float.
Proof.
  destruct p as [[x y] z].
  unfold finite3, linalg_norm, psub, px, py, pz. cbn [fst snd].
  rewrite !andb_true_iff. intros [[Hx Hy] Hz].
  rewrite (sub_self x Hx), (sub_self y Hy), (sub_self z Hz). reflexivity.
Qed.

(** ** The argmin *)

Lemma no_nan_In (ds : list float) (d : float) :
  no_nan ds = true -> In d ds -> is_nan d = false.
Proof.
  unfold no_nan. rewrite forallb_forall. intros H Hin.
  apply H in Hin. now apply negb_true_iff in Hin.
Qed.

Lemma argmin_from_bound (xs : list float) (i best : nat) (m : float) :
  best < i -> argmin_from i best m xs < i + List.length xs.
Proof.
  revert i best m. induction xs as [|x rest IH]; intros i best m Hb; simpl.
  - destruct (is_nan m); lia.
  - destruct (is_nan m); [lia|].
    destruct (negb (m <=? x)%float).
    + specialize (IH (S i) i x). lia.
    + specialize (IH (S i) best m). lia.
Qed.

Lemma argmin_in_range (ds : list float) :
  ds <> [] -> exists i, argmin ds = Returned i /\ i < List.length ds.
Proof.
  destruct ds as [|d rest]; [congruence|]. intros _.
  eexists. split; [reflexivity|].
  apply (argmin_from_bound rest 1 0 d). lia.
Qed.

(** The scan keeps a first minimum of what it has seen. *)
Lemma argmin_from_first_minimum (xs seen : list float) (best : nat) (m : float) :
  no_nan (seen ++ xs) = true ->
  nth_error seen best = Some m ->
  (forall j x, nth_error seen j = Some x -> (m <=? x)%float = true) ->
  (forall j x, j < best -> nth_error seen j = Some x -> (m <? x)%float = true) ->
  is_first_minimum (seen ++ xs) (argmin_from (List.length seen) best m xs).
Proof.
  revert seen best m.
  induction xs as [|x rest IH]; intros seen best m Hnan Hm Hle Hlt.
  - assert (is_nan m = false) as Hn
      by (apply (no_nan_In _ _ Hnan), in_or_app; left; eapply nth_error_In; eauto).
    simpl. rewrite Hn, app_nil_r. exists m. auto.
  - assert (is_nan m = false) as Hn
      by (apply (no_nan_In _ _ Hnan), in_or_app; left; eapply nth_error_In; eauto).
    assert (is_nan x = false) as Hx
      by (apply (no_nan_In _ _ Hnan), in_or_app; right; now left).
    assert (best < List.length seen) as Hb by (apply nth_error_Some; congruence).
    simpl. rewrite Hn.
    replace (seen ++ x :: rest) with ((seen ++ [x]) ++ rest) in *
      by (now rewrite <- app_assoc).
    replace (S (List.length seen)) with (List.length (seen ++ [x]))
      by (rewrite length_app; simpl; lia).
    destruct (m <=? x)%float eqn:Ecmp; cbn [negb].
    + apply IH; auto.
      * rewrite nth_error_app1; auto.
      * intros j y Hj.
        destruct (Nat.lt_ge_cases j (List.length seen)) as [Hlen|Hlen].
        -- rewrite nth_error_app1 in Hj by exact Hlen. eauto.
        -- rewrite nth_error_app2 in Hj by exact Hlen.
           destruct (j - List.length seen) as [|n]; simpl in Hj;
             [congruence | now destruct n].
      * intros j y Hjb Hj.
        rewrite nth_error_app1 in Hj by lia. eauto.
    + apply leb_false_ltb in Ecmp; auto.
      apply IH; auto.
      * rewrite nth_error_app2, Nat.sub_diag by lia. reflexivity.
      * intros j y Hj.
        destruct (Nat.lt_ge_cases j (List.length seen)) as [Hlen|Hlen].
        -- rewrite nth_error_app1 in Hj by exact Hlen.
           apply ltb_leb, (ltb_leb_trans x m y); eauto.
        -- rewrite nth_error_app2 in Hj by exact Hlen.
           destruct (j - List.length seen) as [|n]; simpl in Hj;
             [|now destruct n].
           injection Hj as <-. now apply leb_refl.
      * intros j y Hjb Hj.
        rewrite nth_error_app1 in Hj by lia.
        apply (ltb_leb_trans x m y); eauto.
Qed.

Lemma argmin_first_minimum (ds : list float) (i : nat) :
  no_nan ds = true -> argmin ds = Returned i -> is_first_minimum ds i.
Proof.
  destruct ds as [|d rest]; [discriminate|].
  intros Hnan H. injection H as <-.
  assert (is_nan d = false) as Hd by (apply (no_nan_In _ _ Hnan); now left).
  apply (argmin_from_first_minimum rest [d] 0 d); auto.
  - intros [|[|j]] x Hj; simpl in Hj; try discriminate.
    injection Hj as <-. now apply leb_refl.
  - intros j x Hj. lia.
Qed.

(** ** The locator *)

(** Once the locator library has answered, the snapping returns: the
    surface point, the argmin of the distances to it, and the vertex there. *)
Lemma snap_returned (L : Libraries) (p : point) (st : Store) (c : point) :
  signed_distance L p (_vertices (self st)) (_faces (self st)) = Returned c ->
  _vertices (self st) <> [] ->
  exists i cv,
    fst (_snap_to_closest_vertex L p st) = Returned (c, cv, i) /\
    nth_error (_vertices (self st)) i = Some cv /\
    argmin (vertex_distances (_vertices (self st)) c) = Returned i.
Proof.
  intros Hc Hv. rewrite snap_run. cbn [fst]. unfold snap_outcome.
  rewrite Hc. cbn [obind].
  destruct (argmin_in_range (vertex_distances (_vertices (self st)) c))
    as [i [Ha Hi]].
  { unfold vertex_distances. destruct (_vertices (self st)); [congruence|discriminate]. }
  rewrite Ha. cbn [obind]. rewrite getitem_nat.
  unfold vertex_distances in Hi. rewrite length_map in Hi.
  destruct (nth_error (_vertices (self st)) i) as [cv|] eqn:Ecv.
  - exists i, cv. cbn [obind]. auto.
  - apply nth_error_None in Ecv. lia.
Qed.

Lemma mesh_has_a_vertex (vertices : list point) (faces : list face) :
  faces <> [] -> mesh_wf vertices faces = true -> vertices <> [].
Proof.
  destruct faces as [|[[a b] c] rest]; [congruence|].
  intros _ H Hv. subst vertices.
  unfold mesh_wf, face_in_range, face_vertices in H. cbn [forallb fst snd List.length] in H.
  rewrite !andb_true_iff in H. destruct H as [[[E0 E1] _] _].
  apply Z.leb_le in E0. apply Z.ltb_lt in E1. simpl in E1. lia.
Qed.

(** The distances the code computes are the Euclidean distances from the
    surface point to the vertices. *)
Lemma linalg_norm_psub (v c : point) :
  linalg_norm (psub v c) = euclidean_distance c v.
Proof. destruct v as [[vx vy] vz], c as [[cx cy] cz]. reflexivity. Qed.

Lemma vertex_distances_euclidean (vertices : list point) (c : point) :
  vertex_distances vertices c = map (euclidean_distance c) vertices.
Proof. unfold vertex_distances. apply map_ext. intros v. apply linalg_norm_psub. Qed.

(** A list has one first minimum at most. *)
Lemma first_minimum_unique (ds : list float) (i j : nat) :
  is_first_minimum ds i -> is_first_minimum ds j -> i = j.
Proof.
  intros [d [Hd [Hle Hlt]]] [d' [Hd' [Hle' Hlt']]].
  destruct (Nat.lt_trichotomy i j) as [H|[H|H]]; [|exact H|]; exfalso.
  - pose proof (ltb_leb_trans _ _ _ (Hlt' i d H Hd) (Hle j d' Hd')) as Habs.
    rewrite ltb_irrefl in Habs. discriminate.
  - pose proof (ltb_leb_trans _ _ _ (Hlt j d' H Hd') (Hle' i d Hd)) as Habs.
    rewrite ltb_irrefl in Habs. discriminate.
Qed.

Lemma SFleb_eqb_trans (a b c : spec_float) :
  SFleb a b = true -> SFeqb b c = true -> SFleb a c = true.
Proof. sf_cases. Qed.

Lemma SFltb_eqb_trans (a b c : spec_float) :
  SFltb a b = true -> SFeqb b c = true -> SFltb a c = true.
Proof. sf_cases. Qed.

Lemma SFltb_eqb_false (a b : spec_float) :
  SFltb a b = true -> SFeqb a b = false.
Proof. sf_cases. Qed.

Lemma SFeqb_common (a b c : spec_float) :
  SFeqb a c = true -> SFeqb b c = true -> SFeqb a b = true.
Proof. sf_cases. Qed.

Lemma leb_eqb_trans (a b c : float) :
  (a <=? b)%float = true -> (b =? c)%float = true -> (a <=? c)%float = true.
Proof. rewrite !FloatAxioms.leb_spec, FloatAxioms.eqb_spec. apply SFleb_eqb_trans. Qed.

Lemma ltb_eqb_trans (a b c : float) :
  (a <? b)%float = true -> (b =? c)%float = true -> (a <? c)%float = true.
Proof. rewrite !FloatAxioms.ltb_spec, FloatAxioms.eqb_spec. apply SFltb_eqb_trans. Qed.

(** A value strictly above one that equals [c] does not equal [c]. *)
Lemma ltb_above_eqb (a b c : float) :
  (a <? b)%float = true -> (a =? c)%float = true -> (b =? c)%float = false.
Proof.
  rewrite FloatAxioms.ltb_spec, !FloatAxioms.eqb_spec. intros Hlt Ha.
  destruct (SFeqb (Prim2SF b) (Prim2SF c)) eqn:Hb; [|reflexivity].
  pose proof (SFeqb_common _ _ _ Ha Hb) as E.
  rewrite (SFltb_eqb_false _ _ Hlt) in E. discriminate.
Qed.

Lemma euclidean_distance_sign (a b : point) :
  is_nan (euclidean_distance a b) = true \/ (0 <=? euclidean_distance a b)%float = true.
Proof. destruct a as [[x1 y1] z1], b as [[x2 y2] z2]. apply sqrt_sign. Qed.

(** C6 (as amended): the snapping measures from the surface point the
    locator library returned, not from the query point.  When none of the
    computed Euclidean distances from the surface point to the vertices is
    NaN, it returns, and what it returns is the surface point with the one
    vertex whose computed distance is not above any vertex's and strictly
    below that of every vertex of lower index: the minimum of the computed
    distances, ties among them going to the lowest index. *)
Theorem snap_selects_first_closest_vertex
    (L : Libraries) (p : point) (st : Store) (c : point) :
  signed_distance L p (_vertices (self st)) (_faces (self st)) = Returned c ->
  _vertices (self st) <> [] ->
  no_nan (map (euclidean_distance c) (_vertices (self st))) = true ->
  (exists i cv, fst (_snap_to_closest_vertex L p st) = Returned (c, cv, i)) /\
  (forall i cv,
     fst (_snap_to_closest_vertex L p st) = Returned (c, cv, i) <->
     nth_error (_vertices (self st)) i = Some cv /\
     is_first_minimum (map (euclidean_distance c) (_vertices (self st))) i).
Proof.
  intros Hc Hv Hnan.
  destruct (snap_returned L p st c Hc Hv) as [i0 [cv0 [Hrun [Hcv Ha]]]].
  rewrite vertex_distances_euclidean in Ha.
  pose proof (argmin_first_minimum _ _ Hnan Ha) as Hmin.
  split; [now exists i0, cv0|].
  intros i cv. split.
  - intros H. rewrite Hrun in H. injection H as <- <-. now split.
  - intros [Hi Hm]. pose proof (first_minimum_unique _ _ _ Hm Hmin) as ->.
    rewrite Hcv in Hi. injection Hi as <-. exact Hrun.
Qed.

(** C7 (as amended): on a mesh with at least one face whose indices are
    valid, once the locator library has answered with a surface point, the
    snapping returns it with the index of a vertex of the mesh and that
    vertex.  For a query point that is vertex k of the mesh, when the
    surface point is at computed distance zero from it (as the point itself
    is, when finite) and no computed distance is NaN, the vertex returned is
    the one of lowest index at computed distance zero from the surface
    point: its index is at most k, no vertex before it is at computed
    distance zero, and it is vertex k exactly when no vertex before k is. *)
Theorem snap_returns_a_mesh_vertex
    (L : Libraries) (p : point) (st : Store) (c : point) :
  signed_distance L p (_vertices (self st)) (_faces (self st)) = Returned c ->
  _faces (self st) <> [] ->
  mesh_wf (_vertices (self st)) (_faces (self st)) = true ->
  exists i cv,
    fst (_snap_to_closest_vertex L p st) = Returned (c, cv, i) /\
    nth_error (_vertices (self st)) i = Some cv /\
    forall k,
      nth_error (_vertices (self st)) k = Some p ->
      (euclidean_distance c p =? 0)%float = true ->
      no_nan (map (euclidean_distance c) (_vertices (self st))) = true ->
      i <= k /\
      (euclidean_distance c cv =? 0)%float = true /\
      (forall j v, j < i -> nth_error (_vertices (self st)) j = Some v ->
                   (euclidean_distance c v =? 0)%float = false) /\
      (i = k <->
       forall j v, j < k -> nth_error (_vertices (self st)) j = Some v ->
                   (euclidean_distance c v =? 0)%float = false).
Proof.
  intros Hc Hf Hwf.
  pose proof (mesh_has_a_vertex _ _ Hf Hwf) as Hv.
  destruct (snap_returned L p st c Hc Hv) as [i [cv [Hrun [Hcv Ha]]]].
  exists i, cv. split; [exact Hrun|]. split; [exact Hcv|].
  intros k Hk Hzero Hnan.
  rewrite vertex_distances_euclidean in Ha.
  apply (argmin_first_minimum _ _ Hnan) in Ha.
  destruct Ha as [d [Hd [Hle Hlt]]].
  assert (forall j v, nth_error (_vertices (self st)) j = Some v ->
            nth_error (map (euclidean_distance c) (_vertices (self st))) j =
              Some (euclidean_distance c v)) as Hnth
    by (intros j v Hj; now rewrite nth_error_map, Hj).
  rewrite (Hnth i cv Hcv) in Hd. injection Hd as <-.
  assert ((0 <=? euclidean_distance c cv)%float = true) as Hpos.
  { destruct (euclidean_distance_sign c cv) as [Hn|Hp]; [|exact Hp].
    pose proof (no_nan_In _ _ Hnan (nth_error_In _ _ (Hnth i cv Hcv))) as Hd.
    congruence. }
  assert (i <= k) as Hik.
  { destruct (Nat.le_gt_cases i k) as [Hik|Hik]; [exact Hik|].
    pose proof (ltb_eqb_trans _ _ _ (Hlt k _ Hik (Hnth k p Hk)) Hzero) as Hlt0.
    pose proof (ltb_leb_trans _ _ _ Hlt0 Hpos) as Habs.
    rewrite ltb_irrefl in Habs. discriminate. }
  pose proof (leb_antisym _ _ (leb_eqb_trans _ _ _ (Hle k _ (Hnth k p Hk)) Hzero) Hpos)
    as Hz.
  assert (forall j v, j < i -> nth_error (_vertices (self st)) j = Some v ->
            (euclidean_distance c v =? 0)%float = false) as Hbefore
    by (intros j v Hj Hjv; exact (ltb_above_eqb _ _ _ (Hlt j _ Hj (Hnth j v Hjv)) Hz)).
  split; [exact Hik|]. split; [exact Hz|]. split; [exact Hbefore|].
  split.
  - intros <-. exact Hbefore.
  - intros Hfirst.
    destruct (Nat.eq_dec i k) as [E|E]; [exact E|].
    assert (i < k) as Hlt' by lia.
    rewrite (Hfirst i cv Hlt' Hcv) in Hz. discriminate.
Qed.

(** * The statements on the bench *)

(** The plugin of the bench is the one the constructor builds. *)
Example plugin_construction_on_bench :
  NavPlugin_init (Bench.rectangle_libs Bench.writes) "navmesh.txt" (Bench.chat "None") None =
    Returned (self (Bench.rectangle_plugin "None" None)).
Proof. reflexivity. Qed.

(** ** The parser and the fallback *)

Lemma one_triple_is_not_two (L : Libraries) : ~ holds_two_triples L "(1,2,3)".
Proof.
  intros [values [k [Hp [Hl Hk]]]].
  apply Forall2_length in Hp. cbn in Hp. lia.
Qed.


Lemma three_triples_fields :
  response_fields "(0,0,0),(3,4,0),(9,9,9)" =
    ["0"; "0"; "0"; "3"; "4"; "0"; "9"; "9"; "9"].
Proof. vm_compute. reflexivity. Qed.

Lemma three_triples_parse :
  fields_parse (Bench.rectangle_libs Bench.writes)
    "(0,0,0),(3,4,0),(9,9,9)" [0; 0; 0; 3; 4; 0; 9; 9; 9]%float.
Proof.
  unfold fields_parse. rewrite three_triples_fields.
  repeat (constructor; [vm_compute; reflexivity|]).
  constructor.
Qed.

(** A response with three triples: the first two are returned. *)
Lemma nl_to_numpy_parses_two_triples_on_bench :
  exists first second rest,
    [0; 0; 0; 3; 4; 0; 9; 9; 9]%float = coords first ++ coords second ++ rest /\
    fst (_nl_to_numpy
           (Bench.rectangle_libs Bench.writes) "q"
           (Bench.rectangle_plugin "(0,0,0),(3,4,0),(9,9,9)" None)) =
      Returned (Some first, Some second).
Proof.
  assert ("(0,0,0),(3,4,0),(9,9,9)" <> "None") as Hs by discriminate.
  exact (proj1 (proj2 (nl_to_numpy_parses_two_triples
                         (Bench.rectangle_libs Bench.writes)
                         "q"
                         (Bench.rectangle_plugin "(0,0,0),(3,4,0),(9,9,9)" None)
                         "(0,0,0),(3,4,0),(9,9,9)" eq_refl Hs))
               [0; 0; 0; 3; 4; 0; 9; 9; 9]%float 3
               three_triples_parse eq_refl (le_S 2 2 (le_n 2))).
Defined.

(** ** The navigable-distance computation on the rectangle *)

(** The claim that the computation never visualizes fails with a
    visualization directory: a query from corner 0 to corner 2 of the
    rectangle hands a figure to [write_html]. *)
Lemma navigable_distance_writes_html_on_bench :
  events (Bench.rectangle_plugin "" (Some "out")) = [] /\
  written_files
    (events (snd (_get_navigable_distance
                    (Bench.rectangle_libs Bench.writes)
                    (0, 0, 0)%float (3, 4, 0)%float
                    (Bench.rectangle_plugin ""
                                  (Some "out"))))) =
    ["out/0.0-0.0-0.0_3.0-4.0-0.0.html"].
Proof. split; vm_compute; reflexivity. Qed.

Lemma navigable_distance_visualizes_when_configured_on_bench :
  (exists calls,
     events (snd (_get_navigable_distance
                    (Bench.rectangle_libs Bench.writes)
                    (0, 0, 0)%float (3, 4, 0)%float
                    (Bench.rectangle_plugin "" None))) =
       events (Bench.rectangle_plugin "" None)
       ++ calls /\
     forallb is_snap_or_solve calls = true) /\
  (exists fig,
     In (WriteHtmlCall
           (vis_filename
              (Bench.rectangle_libs Bench.writes)
              "out" (0, 0, 0)%float (3, 4, 0)%float) fig)
        (events (snd (_get_navigable_distance
                        (Bench.rectangle_libs Bench.writes)
                        (0, 0, 0)%float (3, 4, 0)%float
                        (Bench.rectangle_plugin ""
                                      (Some "out")))))).
Proof.
  split.
  - apply (proj1 (navigable_distance_visualizes_when_configured
                    (Bench.rectangle_libs Bench.writes) (0, 0, 0)%float (3, 4, 0)%float
                    (Bench.rectangle_plugin "" None))).
    reflexivity.
  - apply (proj2 (navigable_distance_visualizes_when_configured
                    (Bench.rectangle_libs Bench.writes) (0, 0, 0)%float (3, 4, 0)%float
                    (Bench.rectangle_plugin "" (Some "out")))
             "out" "The distance between specified points is 5.0 meters.").
    + reflexivity.
    + vm_compute. reflexivity.
Defined.

(** The claim that a point that is not finite fails the computation with
    InvalidInput fails: a start point with a NaN coordinate is snapped and
    solved like any other, and the computation returns an answer. *)
Lemma nan_start_is_snapped_and_solved :
  finite3 (nan, 0, 0)%float = false /\
  fst (_get_navigable_distance
         (Bench.rectangle_libs Bench.writes)
         (nan, 0, 0)%float (3, 4, 0)%float
         (Bench.rectangle_plugin "" None)) =
    Returned "The distance between specified points is 5.0 meters." /\
  events (snd (_get_navigable_distance
                 (Bench.rectangle_libs Bench.writes)
                 (nan, 0, 0)%float (3, 4, 0)%float
                 (Bench.rectangle_plugin "" None))) =
    [SignedDistanceCall (nan, 0, 0)%float; SignedDistanceCall (3, 4, 0)%float;
     GeodesicCall 0 2].
Proof. repeat split; vm_compute; reflexivity. Qed.

(** The claim that a failure of the visualizer leaves the answer of the
    query untouched fails: the solver has found the diagonal, of length 5,
    the file cannot be written, and the query raises OSError. *)
Lemma full_disk_fails_the_query :
  geodesicDistance
    (Bench.rectangle_libs Bench.disk_full)
    Bench.rectangle_vertices Bench.rectangle_faces 0 2 =
    Returned (Some 5%float, Some [(3, 4, 0); (0, 0, 0)]%float) /\
  fst (get_actual_distance_from_query
         (Bench.rectangle_libs Bench.disk_full) "q"
         (Bench.rectangle_plugin "(0,0,0),(3,4,0)" (Some "out"))) =
    Raised (PyExn "OSError").
Proof. split; vm_compute; reflexivity. Qed.

Lemma visualizer_failure_propagates_on_bench :
  fst (_get_navigable_distance
         (Bench.rectangle_libs Bench.disk_full)
         (0, 0, 0)%float (3, 4, 0)%float
         (Bench.rectangle_plugin "" (Some "out"))) =
    Raised (PyExn "OSError").
Proof.
  rewrite (visualizer_failure_propagates
             (Bench.rectangle_libs Bench.disk_full)
             (0, 0, 0)%float (3, 4, 0)%float
             (Bench.rectangle_plugin "" (Some "out"))
             (0, 0, 0)%float (0, 0, 0)%float (3, 4, 0)%float (3, 4, 0)%float 0 2
             (Some 5%float) (Some [(3, 4, 0); (0, 0, 0)]%float) "out").
  - vm_compute. reflexivity.
  - vm_compute. reflexivity.
  - vm_compute. reflexivity.
  - vm_compute. reflexivity.
  - reflexivity.
Defined.

(** The three texts, each on a run of the bench: the diagonal of the
    rectangle, the two islands, a response with one triple only. *)
Lemma actual_distance_answers_on_bench :
  (exists dist w ws,
     geodesicDistance (Bench.rectangle_libs Bench.writes)
       Bench.rectangle_vertices Bench.rectangle_faces 0 2 = Returned (dist, Some (w :: ws)) /\
     fst (get_actual_distance_from_query (Bench.rectangle_libs Bench.writes) "q"
            (Bench.rectangle_plugin "(0,0,0),(3,4,0)" None)) =
       Returned "The distance between specified points is 5.0 meters.") /\
  (exists dist path,
     geodesicDistance Bench.islands_libs Bench.islands_vertices Bench.islands_faces 0 3 =
       Returned (dist, path) /\
     (path = None \/ path = Some []) /\
     fst (get_actual_distance_from_query Bench.islands_libs "q"
            (Bench.plugin Bench.islands_vertices Bench.islands_faces
                          "(0,0,0),(5,0,0)" None)) =
       Returned "The path between specified objects is not navigable considering obstacles.") /\
  (("(1,2,3)" = "None" \/ ~ holds_two_triples (Bench.rectangle_libs Bench.writes) "(1,2,3)") /\
   fst (get_actual_distance_from_query (Bench.rectangle_libs Bench.writes) "q"
          (Bench.rectangle_plugin "(1,2,3)" None)) =
     Returned ("The query does not contain information about the objects' "
               ++ "positions or the positions could not be parsed.")%string).
Proof.
  split; [|split].
  - assert (fst (get_actual_distance_from_query (Bench.rectangle_libs Bench.writes) "q"
                   (Bench.rectangle_plugin "(0,0,0),(3,4,0)" None)) =
              Returned "The distance between specified points is 5.0 meters.") as Hrun
      by (vm_compute; reflexivity).
    destruct (actual_distance_answers _ _ _ _ Hrun) as [response [Hr [[_ Hbad]|Hgood]]];
      [discriminate Hbad|].
    destruct Hgood
      as [start [goal [cs [cvs [s [cg [cvg [g [dist [path [Hn [Hs [Hg [Hd Hcase]]]]]]]]]]]]]].
    assert (fst (_nl_to_numpy (Bench.rectangle_libs Bench.writes) "q"
                   (Bench.rectangle_plugin "(0,0,0),(3,4,0)" None)) =
              Returned (Some (0, 0, 0)%float, Some (3, 4, 0)%float)) as En
      by (vm_compute; reflexivity).
    rewrite En in Hn. injection Hn as <- <-.
    assert (fst (_snap_to_closest_vertex (Bench.rectangle_libs Bench.writes) (0, 0, 0)%float
                   (Bench.rectangle_plugin "(0,0,0),(3,4,0)" None)) =
              Returned ((0, 0, 0)%float, (0, 0, 0)%float, 0)) as Es
      by (vm_compute; reflexivity).
    assert (fst (_snap_to_closest_vertex (Bench.rectangle_libs Bench.writes) (3, 4, 0)%float
                   (Bench.rectangle_plugin "(0,0,0),(3,4,0)" None)) =
              Returned ((3, 4, 0)%float, (3, 4, 0)%float, 2)) as Eg
      by (vm_compute; reflexivity).
    rewrite Es in Hs. rewrite Eg in Hg. injection Hs as <- <- <-. injection Hg as <- <- <-.
    destruct Hcase as [[[w [ws ->]] _]|[_ Hbad]]; [|discriminate Hbad].
    exists dist, w, ws. split; [exact Hd | exact Hrun].
  - assert (fst (get_actual_distance_from_query Bench.islands_libs "q"
                   (Bench.plugin Bench.islands_vertices Bench.islands_faces
                                 "(0,0,0),(5,0,0)" None)) =
              Returned "The path between specified objects is not navigable considering obstacles.")
      as Hrun by (vm_compute; reflexivity).
    destruct (actual_distance_answers _ _ _ _ Hrun) as [response [Hr [[_ Hbad]|Hgood]]];
      [discriminate Hbad|].
    destruct Hgood
      as [start [goal [cs [cvs [s [cg [cvg [g [dist [path [Hn [Hs [Hg [Hd Hcase]]]]]]]]]]]]]].
    assert (fst (_nl_to_numpy Bench.islands_libs "q"
                   (Bench.plugin Bench.islands_vertices Bench.islands_faces
                                 "(0,0,0),(5,0,0)" None)) =
              Returned (Some (0, 0, 0)%float, Some (5, 0, 0)%float)) as En
      by (vm_compute; reflexivity).
    rewrite En in Hn. injection Hn as <- <-.
    assert (fst (_snap_to_closest_vertex Bench.islands_libs (0, 0, 0)%float
                   (Bench.plugin Bench.islands_vertices Bench.islands_faces
                                 "(0,0,0),(5,0,0)" None)) =
              Returned ((0, 0, 0)%float, (0, 0, 0)%float, 0)) as Es
      by (vm_compute; reflexivity).
    assert (fst (_snap_to_closest_vertex Bench.islands_libs (5, 0, 0)%float
                   (Bench.plugin Bench.islands_vertices Bench.islands_faces
                                 "(0,0,0),(5,0,0)" None)) =
              Returned ((5, 0, 0)%float, (5, 0, 0)%float, 3)) as Eg
      by (vm_compute; reflexivity).
    rewrite Es in Hs. rewrite Eg in Hg. injection Hs as <- <- <-. injection Hg as <- <- <-.
    destruct Hcase as [[_ Hbad]|[Hpath _]]; [discriminate Hbad|].
    exists dist, path. split; [exact Hd|]. split; [exact Hpath | exact Hrun].
  - assert (fst (get_actual_distance_from_query (Bench.rectangle_libs Bench.writes) "q"
                   (Bench.rectangle_plugin "(1,2,3)" None)) =
              Returned ("The query does not contain information about the objects' "
                        ++ "positions or the positions could not be parsed.")%string)
      as Hrun by (vm_compute; reflexivity).
    destruct (actual_distance_answers _ _ _ _ Hrun) as [response [Hr [[Hcase _]|Hgood]]].
    + injection Hr as <-. split; [exact Hcase | exact Hrun].
    + destruct Hgood as [start [goal [cs [cvs [s [cg [cvg [g [dist [path [Hn _]]]]]]]]]]].
      assert (fst (_nl_to_numpy (Bench.rectangle_libs Bench.writes) "q"
                     (Bench.rectangle_plugin "(1,2,3)" None)) = Returned (None, None)) as En
        by (vm_compute; reflexivity).
      rewrite En in Hn. discriminate Hn.
Defined.

(** ** The locator on the tent, the kite and the sliver *)

(** On the tent the locator reports the foot (5,0,0) for the query point
    (5,-10,0): the three computed distances from the foot are 5, and vertex
    0, the apex, is returned; measured from the query point the apex would
    be the farthest vertex, and vertex 1 the choice. *)
Lemma snap_selects_first_closest_vertex_on_bench :
  fst (_snap_to_closest_vertex Bench.tent_libs (5, -10, 0)%float Bench.tent_plugin) =
    Returned ((5, 0, 0)%float, (5, 5, 0)%float, 0) /\
  map (euclidean_distance (5, 0, 0)%float) Bench.tent_vertices = [5; 5; 5]%float /\
  argmin (map (euclidean_distance (5, -10, 0)%float) Bench.tent_vertices) = Returned 1.
Proof.
  assert (map (euclidean_distance (5, 0, 0)%float) Bench.tent_vertices = [5; 5; 5]%float)
    as Hds by (vm_compute; reflexivity).
  split; [|split; [exact Hds | vm_compute; reflexivity]].
  apply (proj2 (snap_selects_first_closest_vertex Bench.tent_libs (5, -10, 0)%float
                  Bench.tent_plugin (5, 0, 0)%float eq_refl
                  ltac:(discriminate) ltac:(vm_compute; reflexivity))
               0 (5, 5, 0)%float).
  split; [reflexivity|].
  change (_vertices (self Bench.tent_plugin)) with Bench.tent_vertices.
  rewrite Hds. exists 5%float. split; [reflexivity|]. split.
  - intros j x Hj.
    do 3 (destruct j as [|j]; [injection Hj as <-; reflexivity|]).
    destruct j; discriminate Hj.
  - intros j x Hj. inversion Hj.
Defined.

(** The claim that the vertex selected is the closest one, ties being exact
    ties, fails: the origin lies on the kite, vertex 1 is at distance 1
    from it and vertex 0 strictly farther, by 2^-600 sideways; the square of
    2^-600 is lost in the sum, both computed distances are 1, and vertex 0,
    of lower index, is the one returned. *)
Lemma near_tie_goes_to_the_lower_index :
  nth_error Bench.kite_vertices 0 = Some (1, 0x1p-600, 0)%float /\
  nth_error Bench.kite_vertices 1 = Some (1, 0, 0)%float /\
  strictly_closer (0, 0, 0)%float (1, 0, 0)%float (1, 0x1p-600, 0)%float /\
  map (euclidean_distance (0, 0, 0)%float) Bench.kite_vertices = [1; 1; 5; 5]%float /\
  fst (_snap_to_closest_vertex Bench.kite_libs (0, 0, 2)%float Bench.kite_plugin) =
    Returned ((0, 0, 0)%float, (1, 0x1p-600, 0)%float, 0).
Proof. repeat split; vm_compute; reflexivity. Qed.

(** The claim that a query point on a vertex is snapped to that vertex
    fails: the origin is vertex 1 of the sliver and lies on its surface, the
    square of 2^-600 underflows to zero, so vertex 0 is at computed distance
    zero too and, having the lower index, is the vertex returned, whether
    the locator reports the origin itself or vertex 0, the point of the
    first triangle at computed distance zero from it. *)
Lemma snap_of_a_vertex_returns_its_neighbour :
  nth_error Bench.sliver_vertices 1 = Some (0, 0, 0)%float /\
  fst (_snap_to_closest_vertex (Bench.sliver_libs (0x1p-600, 0, 0)%float)
         (0, 0, 0)%float Bench.sliver_plugin) =
    Returned ((0x1p-600, 0, 0)%float, (0x1p-600, 0, 0)%float, 0) /\
  fst (_snap_to_closest_vertex (Bench.sliver_libs (0, 0, 0)%float)
         (0, 0, 0)%float Bench.sliver_plugin) =
    Returned ((0, 0, 0)%float, (0x1p-600, 0, 0)%float, 0).
Proof. repeat split; vm_compute; reflexivity. Qed.

(** The origin, vertex 1 of the sliver, with the surface point 2^-600 away
    from it: vertex 0 is returned, at computed distance zero. *)
Lemma snap_returns_a_mesh_vertex_on_bench :
  fst (_snap_to_closest_vertex (Bench.sliver_libs (0x1p-600, 0, 0)%float)
         (0, 0, 0)%float Bench.sliver_plugin) =
    Returned ((0x1p-600, 0, 0)%float, (0x1p-600, 0, 0)%float, 0) /\
  (euclidean_distance (0x1p-600, 0, 0)%float (0x1p-600, 0, 0)%float =? 0)%float = true /\
  ~ (forall j v, j < 1 -> nth_error Bench.sliver_vertices j = Some v ->
                 (euclidean_distance (0x1p-600, 0, 0)%float v =? 0)%float = false).
Proof.
  destruct (snap_returns_a_mesh_vertex (Bench.sliver_libs (0x1p-600, 0, 0)%float)
              (0, 0, 0)%float Bench.sliver_plugin (0x1p-600, 0, 0)%float)
    as [i [cv [Hrun [Hcv Hk]]]].
  - reflexivity.
  - discriminate.
  - vm_compute. reflexivity.
  - assert (fst (_snap_to_closest_vertex (Bench.sliver_libs (0x1p-600, 0, 0)%float)
                   (0, 0, 0)%float Bench.sliver_plugin) =
              Returned ((0x1p-600, 0, 0)%float, (0x1p-600, 0, 0)%float, 0)) as E
      by (vm_compute; reflexivity).
    rewrite E in Hrun. injection Hrun as <- <-.
    destruct (Hk 1) as [_ [Hzero [_ Hiff]]].
    + reflexivity.
    + vm_compute. reflexivity.
    + vm_compute. reflexivity.
    + split; [exact E|]. split; [exact Hzero|].
      intros H. apply Hiff in H. discriminate H.
Defined.

(** ** The islands *)

(** The claim that vertices in different connected components fail apart
    from the obstacle answer fails: vertices 0 and 3 of the islands share no
    component, the solver finds no path, and the answer is the one given
    for obstacles. *)
Lemma islands_get_the_obstacle_answer :
  same_component Bench.islands_faces 0 3 = false /\
  fst (_snap_to_closest_vertex Bench.islands_libs (0, 0, 0)%float
         (Bench.islands_plugin None)) =
    Returned ((0, 0, 0)%float, (0, 0, 0)%float, 0) /\
  fst (_snap_to_closest_vertex Bench.islands_libs (5, 0, 0)%float
         (Bench.islands_plugin None)) =
    Returned ((5, 0, 0)%float, (5, 0, 0)%float, 3) /\
  fst (_get_navigable_distance Bench.islands_libs (0, 0, 0)%float (5, 0, 0)%float
         (Bench.islands_plugin None)) =
    Returned "The path between specified objects is not navigable considering obstacles.".
Proof. repeat split; vm_compute; reflexivity. Qed.

Lemma no_path_has_a_single_answer_on_bench :
  (forall r,
     fst (_get_navigable_distance Bench.islands_libs (0, 0, 0)%float (5, 0, 0)%float
            (Bench.islands_plugin None)) = Returned r ->
     r = not_navigable_message) /\
  (_vis_dirpath (self (Bench.islands_plugin None)) = None ->
   fst (_get_navigable_distance Bench.islands_libs (0, 0, 0)%float (5, 0, 0)%float
          (Bench.islands_plugin None)) = Returned not_navigable_message).
Proof.
  apply (no_path_has_a_single_answer Bench.islands_libs (0, 0, 0)%float (5, 0, 0)%float
           (Bench.islands_plugin None)
           (0, 0, 0)%float (0, 0, 0)%float (5, 0, 0)%float (5, 0, 0)%float 0 3
           (Some 0%float) (Some [])).
  - vm_compute. reflexivity.
  - vm_compute. reflexivity.
  - vm_compute. reflexivity.
  - reflexivity.
Defined.

(** * More facts *)

(** ** What the queries record *)

(** The extraction, whatever the chat model does: one call of the chat
    model, no call of the locator or of the solver, no file. *)
Lemma nl_to_numpy_trace (L : Libraries) (q : string) (st : Store) :
  exists new,
    _nl_to_numpy L q st =
      (match get_response (_llm_chat (self st)) NAV_SYSTEM_PROMPT q with
       | Returned response => Returned (positions_of L response)
       | Raised e => Raised e
       end,
       log_event st new) /\
    chat_calls new = [(NAV_SYSTEM_PROMPT, q)] /\
    geometry_calls new = [] /\
    written_files new = [].
Proof.
  unfold _nl_to_numpy, positions_of, parsed_rows, response_fields, log_event.
  change 0%Z with (Z.of_nat 0). change 1%Z with (Z.of_nat 1).
  unfold bind, logger_info, emit, get_self, lift, ret, try_except.
  cbn [self events fst snd].
  destruct (get_response (_llm_chat (self st)) NAV_SYSTEM_PROMPT q) as [response|e].
  - destruct (String.eqb response "None").
    + close_run.
    + destruct (array_of_strings L _) as [values|e]; cbn [obind].
      * destruct (reshape3 values) as [rows|e].
        -- rewrite !getitem_nat.
           destruct rows as [|a [|b rows]]; cbn [nth_error]; close_run.
        -- close_run.
      * close_run.
  - close_run.
Qed.

(** The events a navigable-distance computation adds hold no call of the
    chat model. *)
Lemma navigable_outcome_chat_calls (L : Libraries) (me : NavPlugin) (start goal : point) :
  chat_calls (snd (navigable_outcome L me start goal)) = [].
Proof.
  unfold navigable_outcome.
  destruct (snap_outcome L me start) as [[[cs cvs] s]|e]; [|reflexivity].
  destruct (snap_outcome L me goal) as [[[cg cvg] g]|e]; [|reflexivity].
  destruct (geodesicDistance L _ _ s g) as [[dist path]|e]; [|reflexivity].
  destruct (_vis_dirpath me) as [dir|]; [|reflexivity].
  cbn [snd]. destruct (figure_of _ _ _ _); reflexivity.
Qed.

Lemma chat_calls_app (a b : list event) :
  chat_calls (a ++ b) = chat_calls a ++ chat_calls b.
Proof. unfold chat_calls. apply flat_map_app. Qed.

Lemma written_files_app (a b : list event) :
  written_files (a ++ b) = written_files a ++ written_files b.
Proof. unfold written_files. apply flat_map_app. Qed.

Lemma geometry_calls_app (a b : list event) :
  geometry_calls (a ++ b) = geometry_calls a ++ geometry_calls b.
Proof. unfold geometry_calls. apply filter_app. Qed.

(** The navigable-distance query, whatever the chat model does: its
    outcome, and its events as those of the extraction, those of the
    computation if there is one, and the closing log line if it returns. *)
Lemma actual_distance_trace (L : Libraries) (q : string) (st : Store) :
  exists extraction rest,
    get_actual_distance_from_query L q st =
      (match get_response (_llm_chat (self st)) NAV_SYSTEM_PROMPT q with
       | Returned response =>
           match positions_of L response with
           | (Some start, Some goal) => fst (navigable_outcome L (self st) start goal)
           | _ => Returned extraction_failed_message
           end
       | Raised e => Raised e
       end,
       log_event st (extraction ++ rest)) /\
    chat_calls extraction = [(NAV_SYSTEM_PROMPT, q)] /\
    geometry_calls extraction = [] /\
    written_files extraction = [] /\
    chat_calls rest = [] /\
    match get_response (_llm_chat (self st)) NAV_SYSTEM_PROMPT q with
    | Returned response =>
        match positions_of L response with
        | (Some start, Some goal) =>
            geometry_calls rest =
              geometry_calls (snd (navigable_outcome L (self st) start goal)) /\
            written_files rest =
              written_files (snd (navigable_outcome L (self st) start goal))
        | _ => geometry_calls rest = [] /\ written_files rest = []
        end
    | Raised _ => geometry_calls rest = [] /\ written_files rest = []
    end.
Proof.
  unfold get_actual_distance_from_query.
  unfold bind at 1. unfold logger_info at 1, emit at 1.
  unfold bind at 1.
  destruct (nl_to_numpy_trace L q
              {| self := self st;
                 events := events st ++ [LogInfo "Calling the navigable distance function."] |})
    as [new [E [Hc [Hg Hw]]]].
  cbn [self] in E. rewrite E. clear E. unfold log_event. cbn [self events].
  exists ([LogInfo "Calling the navigable distance function."] ++ new).
  rewrite chat_calls_app, geometry_calls_app, written_files_app, Hc, Hg, Hw.
  destruct (get_response (_llm_chat (self st)) NAV_SYSTEM_PROMPT q) as [response|e].
  - destruct (positions_of L response) as [[start|] [goal|]].
    + unfold bind at 1. rewrite navigable_run. cbn [self log_event events fst snd].
      destruct (fst (navigable_outcome L (self st) start goal)) as [r|e].
      * exists (snd (navigable_outcome L (self st) start goal)
                ++ [LogInfo ("Response: " ++ r)%string]).
        unfold bind, logger_info, emit, ret, log_event. cbn [self events].
        rewrite chat_calls_app, geometry_calls_app, written_files_app,
          navigable_outcome_chat_calls, !app_nil_r.
        rewrite <- !app_assoc. repeat split; reflexivity.
      * exists (snd (navigable_outcome L (self st) start goal)).
        unfold log_event. cbn [self events].
        rewrite navigable_outcome_chat_calls, <- !app_assoc.
        repeat split; reflexivity.
    + eexists. unfold bind, logger_info, emit, ret. cbn [self events].
      rewrite <- !app_assoc. repeat split; reflexivity.
    + eexists. unfold bind, logger_info, emit, ret. cbn [self events].
      rewrite <- !app_assoc. repeat split; reflexivity.
    + eexists. unfold bind, logger_info, emit, ret. cbn [self events].
      rewrite <- !app_assoc. repeat split; reflexivity.
  - exists []. rewrite app_nil_r, <- !app_assoc. repeat split; reflexivity.
Qed.

(** The straight-line query, whatever the chat model does. *)
Lemma straight_line_trace (L : Libraries) (q : string) (st : Store) :
  exists new,
    get_straight_line_distance_from_query L q st =
      (match get_response (_llm_chat (self st)) NAV_SYSTEM_PROMPT q with
       | Returned response =>
           match positions_of L response with
           | (Some start, Some goal) =>
               Returned (distance_message (str_float L (linalg_norm (psub goal start))))
           | _ => Returned extraction_failed_message
           end
       | Raised e => Raised e
       end,
       log_event st new) /\
    chat_calls new = [(NAV_SYSTEM_PROMPT, q)] /\
    geometry_calls new = [] /\
    written_files new = [].
Proof.
  unfold get_straight_line_distance_from_query.
  unfold bind at 1. unfold logger_info at 1, emit at 1.
  unfold bind at 1.
  destruct (nl_to_numpy_trace L q
              {| self := self st;
                 events := events st
                           ++ [LogInfo "Calling the straight-line distance function."] |})
    as [new [E [Hc [Hg Hw]]]].
  cbn [self] in E. rewrite E. clear E. unfold log_event. cbn [self events].
  destruct (get_response (_llm_chat (self st)) NAV_SYSTEM_PROMPT q) as [response|e].
  - destruct (positions_of L response) as [[start|] [goal|]];
      unfold bind, logger_info, emit, ret; cbn [self events];
      eexists; rewrite <- !app_assoc; (split; [reflexivity|]);
      rewrite ?chat_calls_app, ?geometry_calls_app, ?written_files_app, ?Hc, ?Hg, ?Hw;
      repeat split; reflexivity.
  - exists ([LogInfo "Calling the straight-line distance function."] ++ new).
    rewrite <- !app_assoc. split; [reflexivity|].
    rewrite chat_calls_app, geometry_calls_app, written_files_app, Hc, Hg, Hw.
    repeat split; reflexivity.
Qed.

(** X1: an exception of the chat model is not caught: both queries raise
    it, and neither has called the locator or the solver or written a
    file. *)
Theorem chat_failure_propagates
    (L : Libraries) (q : string) (st : Store) (e : exn) :
  get_response (_llm_chat (self st)) NAV_SYSTEM_PROMPT q = Raised e ->
  fst (get_actual_distance_from_query L q st) = Raised e /\
  fst (get_straight_line_distance_from_query L q st) = Raised e /\
  geometry_calls (events (snd (get_actual_distance_from_query L q st))) =
    geometry_calls (events st) /\
  written_files (events (snd (get_actual_distance_from_query L q st))) =
    written_files (events st) /\
  geometry_calls (events (snd (get_straight_line_distance_from_query L q st))) =
    geometry_calls (events st) /\
  written_files (events (snd (get_straight_line_distance_from_query L q st))) =
    written_files (events st).
Proof.
  intros Hr.
  destruct (actual_distance_trace L q st) as [ex [rest [Ea [_ [Hg [Hw [_ Hrest]]]]]]].
  destruct (straight_line_trace L q st) as [new [Es [_ [Hg' Hw']]]].
  rewrite Ea, Es, Hr in *. destruct Hrest as [Hgr Hwr].
  unfold log_event. cbn [fst snd events].
  rewrite !geometry_calls_app, !written_files_app, Hg, Hw, Hgr, Hwr, Hg', Hw', !app_nil_r.
  repeat split; reflexivity.
Qed.

(** X2: each query calls the chat model exactly once, with the navigation
    system prompt and the text it was given, whatever happens next. *)
Theorem queries_call_the_chat_once (L : Libraries) (q : string) (st : Store) :
  chat_calls (events (snd (get_actual_distance_from_query L q st))) =
    chat_calls (events st) ++ [(NAV_SYSTEM_PROMPT, q)] /\
  chat_calls (events (snd (get_straight_line_distance_from_query L q st))) =
    chat_calls (events st) ++ [(NAV_SYSTEM_PROMPT, q)].
Proof.
  destruct (actual_distance_trace L q st) as [ex [rest [Ea [Hc [_ [_ [Hcr _]]]]]]].
  destruct (straight_line_trace L q st) as [new [Es [Hc' _]]].
  rewrite Ea, Es. unfold log_event. cbn [snd events].
  rewrite !chat_calls_app, Hc, Hcr, Hc', app_nil_r. split; reflexivity.
Qed.

(** X3: the straight-line query never calls the locator or the solver and
    never writes a file, whatever the chat model answers and whether or
    not a visualization directory is configured. *)
Theorem straight_line_leaves_the_mesh_alone (L : Libraries) (q : string) (st : Store) :
  geometry_calls (events (snd (get_straight_line_distance_from_query L q st))) =
    geometry_calls (events st) /\
  written_files (events (snd (get_straight_line_distance_from_query L q st))) =
    written_files (events st).
Proof.
  destruct (straight_line_trace L q st) as [new [Es [_ [Hg Hw]]]].
  rewrite Es. unfold log_event. cbn [snd events].
  rewrite geometry_calls_app, written_files_app, Hg, Hw, !app_nil_r.
  split; reflexivity.
Qed.


(** ** Parentheses in the response *)

Lemma remove_char_idempotent (c : ascii) (s : string) :
  remove_char c (remove_char c s) = remove_char c s.
Proof.
  induction s as [|a s IH]; [reflexivity|]. simpl.
  destruct (Ascii.eqb a c) eqn:E; [exact IH|].
  simpl. rewrite E, IH. reflexivity.
Qed.

Lemma remove_char_comm (c d : ascii) (s : string) :
  remove_char c (remove_char d s) = remove_char d (remove_char c s).
Proof.
  induction s as [|a s IH]; [reflexivity|]. simpl.
  destruct (Ascii.eqb a d) eqn:Ed, (Ascii.eqb a c) eqn:Ec; simpl;
    rewrite ?Ed, ?Ec, IH; reflexivity.
Qed.

Lemma without_parentheses_idempotent (s : string) :
  without_parentheses (without_parentheses s) = without_parentheses s.
Proof.
  unfold without_parentheses.
  rewrite (remove_char_comm "(" ")"), !remove_char_idempotent.
  reflexivity.
Qed.

(** The sentinel would fail the parse anyway: what the parser hands back
    is a function of the response without its parentheses. *)
Lemma positions_of_fields (L : Libraries) (response : string) :
  positions_of L response =
    match obind (array_of_strings L (split "," (without_parentheses response))) reshape3 with
    | Returned (first :: second :: _) => (Some first, Some second)
    | _ => (None, None)
    end.
Proof.
  unfold positions_of, parsed_rows, response_fields, without_parentheses.
  destruct (String.eqb_spec response "None") as [->|_]; [|reflexivity].
  cbn. destruct (float_of_string L "None"); reflexivity.
Qed.

(** X5: parentheses play no part in the parse: two responses that agree
    once their parentheses are removed (a response without any, with
    unbalanced ones) are extracted alike. *)
Theorem parentheses_are_ignored
    (L : Libraries) (q q' : string) (st st' : Store) (response response' : string) :
  get_response (_llm_chat (self st)) NAV_SYSTEM_PROMPT q = Returned response ->
  get_response (_llm_chat (self st')) NAV_SYSTEM_PROMPT q' = Returned response' ->
  without_parentheses response = without_parentheses response' ->
  fst (_nl_to_numpy L q st) = fst (_nl_to_numpy L q' st').
Proof.
  intros Hr Hr' E.
  destruct (nl_to_numpy_trace L q st) as [new [E1 _]].
  destruct (nl_to_numpy_trace L q' st') as [new' [E2 _]].
  rewrite E1, E2, Hr, Hr'. cbn [fst].
  now rewrite !positions_of_fields, E.
Qed.

(** ** The visualizer *)

Lemma getitem_indexable {A : Type} (a : list A) (i : Z) :
  in_numpy_range (List.length a) i = true -> exists x, getitem a i = Returned x.
Proof.
  unfold in_numpy_range, getitem. rewrite andb_true_iff.
  intros [Hlo Hhi]. apply Z.leb_le in Hlo. apply Z.ltb_lt in Hhi.
  set (n := Z.of_nat (List.length a)) in *.
  set (j := if (i <? 0)%Z then (i + n)%Z else i).
  assert (0 <= j < n)%Z as [Hj0 Hjn]
    by (unfold j; destruct (Z.ltb_spec i 0); lia).
  destruct (Z.leb_spec 0 j) as [_|H]; [|lia].
  destruct (Z.ltb_spec j n) as [_|H]; [|lia].
  cbn [andb].
  destruct (nth_error a (Z.to_nat j)) as [x|] eqn:E; [now exists x|].
  apply nth_error_None in E. unfold n in Hjn. lia.
Qed.

Lemma getitem_not_indexable {A : Type} (a : list A) (i : Z) :
  in_numpy_range (List.length a) i = false -> getitem a i = Raised IndexError.
Proof.
  unfold in_numpy_range, getitem. rewrite andb_false_iff.
  set (n := Z.of_nat (List.length a)).
  intros H.
  assert (i < - n \/ n <= i)%Z as Hout
    by (destruct H as [H|H]; [apply Z.leb_gt in H | apply Z.ltb_ge in H]; lia).
  destruct (Z.ltb_spec i 0) as [Hneg|Hpos].
  - destruct (Z.leb_spec 0 (i + n)) as [H0|_]; [lia|]. reflexivity.
  - destruct (Z.leb_spec 0 i) as [_|H0]; [|lia].
    destruct (Z.ltb_spec i n) as [Hlt|_]; [lia|]. reflexivity.
Qed.

Lemma getitem_raises {A : Type} (a : list A) (i : Z) (e : exn) :
  getitem a i = Raised e -> e = IndexError.
Proof.
  unfold getitem.
  destruct (_ && _)%bool; [|intros H; now injection H].
  destruct (nth_error a _); [discriminate|]. intros H. now injection H.
Qed.

(** The loop over the faces raises IndexError or nothing. *)
Lemma scan_faces_raises (vertices : list point) (faces : list face)
    (acc : MeshScan) (e : exn) :
  scan_faces vertices faces acc = Raised e -> e = IndexError.
Proof.
  revert acc. induction faces as [|[[f0 f1] f2] rest IH]; intros acc; simpl.
  - discriminate.
  - destruct (getitem vertices f0) as [v1|e1] eqn:E1; cbn [obind];
      [|intros H; injection H as <-; eapply getitem_raises; eauto].
    destruct (getitem vertices f1) as [v2|e2] eqn:E2; cbn [obind];
      [|intros H; injection H as <-; eapply getitem_raises; eauto].
    destruct (getitem vertices f2) as [v3|e3] eqn:E3; cbn [obind];
      [|intros H; injection H as <-; eapply getitem_raises; eauto].
    apply IH.
Qed.

(** With indexable faces the loop returns, one triangle per face. *)
Lemma scan_faces_returns (vertices : list point) (faces : list face) (acc : MeshScan) :
  forallb (face_indexable (List.length vertices)) faces = true ->
  exists scan,
    scan_faces vertices faces acc = Returned scan /\
    List.length (triangles scan) = List.length (triangles acc) + List.length faces.
Proof.
  revert acc. induction faces as [|[[f0 f1] f2] rest IH]; intros acc H.
  - exists acc. simpl. split; [reflexivity | lia].
  - cbn [forallb] in H. rewrite andb_true_iff in H. destruct H as [Hf Hrest].
    unfold face_indexable, face_vertices in Hf. cbn [forallb fst snd] in Hf.
    rewrite !andb_true_iff in Hf. destruct Hf as [H0 [H1 [H2 _]]].
    destruct (getitem_indexable vertices f0 H0) as [v1 E1].
    destruct (getitem_indexable vertices f1 H1) as [v2 E2].
    destruct (getitem_indexable vertices f2 H2) as [v3 E3].
    cbn [scan_faces]. rewrite E1, E2, E3. cbn [obind].
    match goal with
    | |- exists scan, scan_faces _ _ ?acc' = _ /\ _ =>
        destruct (IH acc' Hrest) as [scan [Es Hl]]
    end.
    exists scan. split; [exact Es|].
    rewrite Hl. cbn [triangles]. rewrite length_app. simpl. lia.
Qed.

(** A face with an index numpy refuses makes the loop raise IndexError. *)
Lemma scan_faces_index_error (vertices : list point) (faces : list face) (acc : MeshScan) :
  forallb (face_indexable (List.length vertices)) faces = false ->
  scan_faces vertices faces acc = Raised IndexError.
Proof.
  revert acc. induction faces as [|[[f0 f1] f2] rest IH]; intros acc H.
  - discriminate.
  - cbn [forallb] in H. cbn [scan_faces].
    destruct (getitem vertices f0) as [v1|e1] eqn:E1; cbn [obind];
      [|now rewrite (getitem_raises _ _ _ E1)].
    destruct (getitem vertices f1) as [v2|e2] eqn:E2; cbn [obind];
      [|now rewrite (getitem_raises _ _ _ E2)].
    destruct (getitem vertices f2) as [v3|e3] eqn:E3; cbn [obind];
      [|now rewrite (getitem_raises _ _ _ E3)].
    apply IH.
    destruct (face_indexable (List.length vertices) (f0, f1, f2)) eqn:Hf;
      [exact H|].
    exfalso.
    unfold face_indexable, face_vertices in Hf. cbn [forallb fst snd] in Hf.
    destruct (in_numpy_range (List.length vertices) f0) eqn:R0;
      [|rewrite (getitem_not_indexable _ _ R0) in E1; discriminate].
    destruct (in_numpy_range (List.length vertices) f1) eqn:R1;
      [|rewrite (getitem_not_indexable _ _ R1) in E2; discriminate].
    destruct (in_numpy_range (List.length vertices) f2) eqn:R2;
      [|rewrite (getitem_not_indexable _ _ R2) in E3; discriminate].
    discriminate.
Qed.

Lemma triangle_rows_length (ts : list (point * point * point)) :
  List.length (flat_map (fun t => [fst (fst t); snd (fst t); snd t]) ts) =
    3 * List.length ts.
Proof. induction ts as [|t ts IH]; [reflexivity|]. cbn [flat_map app List.length]. lia. Qed.

Lemma concatenate_length (ts : list (point * point * point)) (rows : list point) :
  concatenate ts = Returned rows -> List.length rows = 3 * List.length ts.
Proof.
  unfold concatenate. destruct ts as [|t ts]; [discriminate|].
  intros H. injection H as <-. apply (triangle_rows_length (t :: ts)).
Qed.

Lemma range_step3_triples (n : nat) :
  range_step3 (3 * n) = map (fun t => 3 * t) (seq 0 n).
Proof.
  unfold range_step3.
  replace (3 * n + 2) with (n * 3 + 2) by lia.
  rewrite Nat.div_add_l by lia. simpl (2 / 3). now rewrite Nat.add_0_r.
Qed.

(** X6: called as the plugin calls it, with the dict of its six markers, on
    a mesh with at least one face, all of whose indices numpy accepts, and
    with a path that is absent or not empty, the visualizer builds its
    figure and calls [write_html] exactly once, on the file name it was
    given; it ends as that call ends.  The mesh trace has three points per
    face, triangle t being made of the points 3t, 3t+1 and 3t+2; after it
    come the edges, the path if there is one, and the six markers in the
    order of the dict. *)
Theorem visualizer_draws_indexable_meshes
    (L : Libraries) (vertices : list point) (faces : list face) (out : string)
    (waypoints : option (list point))
    (start goal closest_s closest_g closest_v_s closest_v_g : point) (st : Store) :
  faces <> [] ->
  forallb (face_indexable (List.length vertices)) faces = true ->
  waypoints <> Some [] ->
  exists fig x y z rest,
    visualize_navmesh_3d L vertices faces out waypoints
      [("start", (start, "blue")); ("goal", (goal, "green"));
       ("closest_start", (closest_s, "darkblue"));
       ("closest_goal", (closest_g, "darkgreen"));
       ("closest_v_start", (closest_v_s, "lightblue"));
       ("closest_v_goal", (closest_v_g, "lightgreen"))] st =
      (write_html L fig out, log_event st [WriteHtmlCall out fig]) /\
    fig_data fig =
      Mesh3d x y z
        (map (fun t => 3 * t) (seq 0 (List.length faces)))
        (map (fun t => 3 * t + 1) (seq 0 (List.length faces)))
        (map (fun t => 3 * t + 2) (seq 0 (List.length faces)))
        "blue" :: rest /\
    List.length x = 3 * List.length faces /\
    List.length y = 3 * List.length faces /\
    List.length z = 3 * List.length faces /\
    map trace_name rest =
      ["edges"] ++ match waypoints with Some _ => ["shortest path"] | None => [] end
      ++ ["start"; "goal"; "closest_start"; "closest_goal";
          "closest_v_start"; "closest_v_goal"].
Proof.
  intros Hne Hidx Hway.
  rewrite visualize_run. unfold visualize_outcome, figure_of.
  destruct (scan_faces_returns vertices faces
              {| max_xyz := neg_infinity; min_xyz := infinity;
                 triangles := []; edge_x := []; edge_y := []; edge_z := [] |} Hidx)
    as [scan [Es Hl]].
  rewrite Es. cbn [obind triangles List.length Nat.add] in *.
  destruct (concatenate (triangles scan)) as [rows|e] eqn:Ec.
  2:{ unfold concatenate in Ec. destruct (triangles scan); [|discriminate].
      destruct faces; [congruence|discriminate]. }
  pose proof (concatenate_length _ _ Ec) as Hrows. rewrite Hl in Hrows.
  cbn [obind]. unfold unpack_columns at 1 3.
  destruct rows as [|r rows]; [destruct faces; [congruence|discriminate]|].
  cbn [obind fst snd].
  rewrite length_map, Hrows, range_step3_triples, !map_map.
  assert (forall w, waypoints = Some w -> unpack_columns w =
            Returned (map px w, map py w, map pz w)) as Hw.
  { intros [|p w] E; [congruence|reflexivity]. }
  destruct waypoints as [w|].
  - rewrite (Hw w eq_refl). cbn [obind fst snd].
    eexists _, _, _, _, _. split; [reflexivity|].
    cbn [fig_data app]. split; [reflexivity|].
    rewrite !length_map, Hrows. repeat split; reflexivity.
  - cbn [obind].
    eexists _, _, _, _, _. split; [reflexivity|].
    cbn [fig_data app]. split; [reflexivity|].
    rewrite !length_map, Hrows. repeat split; reflexivity.
Qed.

Lemma figure_of_no_face (vertices : list point) (waypoints : option (list point))
    (points : list (string * (point * string))) :
  figure_of vertices [] waypoints points = Raised ValueError.
Proof. reflexivity. Qed.

Lemma figure_of_bad_index (vertices : list point) (faces : list face)
    (waypoints : option (list point)) (points : list (string * (point * string))) :
  forallb (face_indexable (List.length vertices)) faces = false ->
  figure_of vertices faces waypoints points = Raised IndexError.
Proof.
  intros H. unfold figure_of. now rewrite (scan_faces_index_error _ _ _ H).
Qed.

Lemma figure_of_empty_path (vertices : list point) (faces : list face)
    (points : list (string * (point * string))) :
  forallb (face_indexable (List.length vertices)) faces = true ->
  figure_of vertices faces (Some []) points = Raised ValueError.
Proof.
  intros Hidx. unfold figure_of.
  destruct (scan_faces_returns vertices faces
              {| max_xyz := neg_infinity; min_xyz := infinity;
                 triangles := []; edge_x := []; edge_y := []; edge_z := [] |} Hidx)
    as [scan [Es Hl]].
  rewrite Es. cbn [obind].
  destruct (concatenate (triangles scan)) as [rows|e] eqn:Ec.
  - cbn [obind]. destruct (unpack_columns rows) as [xyz|e] eqn:Eu.
    + reflexivity.
    + unfold unpack_columns in Eu. destruct rows; [|discriminate]. now injection Eu as <-.
  - unfold concatenate in Ec. destruct (triangles scan); [|discriminate].
    now injection Ec as <-.
Qed.

Lemma log_no_event (st : Store) : log_event st [] = st.
Proof. destruct st. unfold log_event. cbn. now rewrite app_nil_r. Qed.

(** X7: the visualizer writes nothing when it cannot build its figure: a
    mesh without faces raises ValueError, a face with an index numpy
    refuses raises IndexError, and an empty path raises ValueError on a
    mesh whose faces are fine. *)
Theorem visualizer_rejects_before_writing
    (L : Libraries) (vertices : list point) (faces : list face) (out : string)
    (waypoints : option (list point)) (points : list (string * (point * string)))
    (st : Store) :
  (faces = [] ->
   visualize_navmesh_3d L vertices faces out waypoints points st =
     (Raised ValueError, st)) /\
  (forallb (face_indexable (List.length vertices)) faces = false ->
   visualize_navmesh_3d L vertices faces out waypoints points st =
     (Raised IndexError, st)) /\
  (forallb (face_indexable (List.length vertices)) faces = true ->
   waypoints = Some [] ->
   visualize_navmesh_3d L vertices faces out waypoints points st =
     (Raised ValueError, st)).
Proof.
  rewrite visualize_run. unfold visualize_outcome.
  split; [|split].
  - intros ->. rewrite figure_of_no_face. cbn [obind]. now rewrite log_no_event.
  - intros H. rewrite (figure_of_bad_index _ _ _ _ H). cbn [obind].
    now rewrite log_no_event.
  - intros H ->. rewrite (figure_of_empty_path _ _ _ H). cbn [obind].
    now rewrite log_no_event.
Qed.

(** X8: with a visualization directory configured, a computation whose
    solver answers with an empty path never returns the not-navigable
    answer: the visualizer raises (ValueError, or IndexError when a face has
    an index numpy refuses) and no file is written. *)
Theorem empty_path_fails_the_visualized_computation
    (L : Libraries) (start goal : point) (st : Store)
    (cs cvs cg cvg : point) (s g : nat) (dist : option float) (dir : string) :
  _vis_dirpath (self st) = Some dir ->
  fst (_snap_to_closest_vertex L start st) = Returned (cs, cvs, s) ->
  fst (_snap_to_closest_vertex L goal st) = Returned (cg, cvg, g) ->
  geodesicDistance L (_vertices (self st)) (_faces (self st)) s g =
    Returned (dist, Some []) ->
  fst (_get_navigable_distance L start goal st) =
    Raised (if forallb (face_indexable (List.length (_vertices (self st))))
                       (_faces (self st))
            then ValueError else IndexError) /\
  written_files (events (snd (_get_navigable_distance L start goal st))) =
    written_files (events st).
Proof.
  rewrite navigable_run, !snap_outcome_fst. unfold navigable_outcome.
  intros Hvis Hs Hg Hd. rewrite Hs, Hg, Hd, Hvis.
  cbn [fst snd log_event events]. unfold visualize_outcome.
  destruct (forallb _ (_faces (self st))) eqn:Hidx.
  - rewrite (figure_of_empty_path _ _ _ Hidx). cbn [obind].
    split; [reflexivity|].
    rewrite !written_files_app. cbn. now rewrite app_nil_r.
  - rewrite (figure_of_bad_index _ _ _ _ Hidx). cbn [obind].
    split; [reflexivity|].
    rewrite !written_files_app. cbn. now rewrite app_nil_r.
Qed.

(** ** NaN, sign and symmetry of the computed distances *)

Lemma is_nan_Prim2SF (x : float) : is_nan x = true -> Prim2SF x = S754_nan.
Proof.
  unfold is_nan. rewrite FloatAxioms.eqb_spec. intros H.
  destruct (Prim2SF x) as [s|s| |s m e] eqn:E; try reflexivity;
    exfalso; revert H; sf_cases.
Qed.

Lemma sub_nan_r (x y : float) : is_nan y = true -> is_nan (x - y) = true.
Proof.
  intros H. apply is_nan_true. rewrite FloatAxioms.sub_spec, (is_nan_Prim2SF y H).
  destruct (Prim2SF x) as [s|s| |s m e]; reflexivity.
Qed.

Lemma mul_nan (x : float) : is_nan x = true -> is_nan (x * x) = true.
Proof.
  intros H. apply is_nan_true. rewrite FloatAxioms.mul_spec, (is_nan_Prim2SF x H).
  reflexivity.
Qed.

Lemma add_nan_l (x y : float) : is_nan x = true -> is_nan (x + y) = true.
Proof.
  intros H. apply is_nan_true. rewrite FloatAxioms.add_spec, (is_nan_Prim2SF x H).
  reflexivity.
Qed.

Lemma add_nan_r (x y : float) : is_nan y = true -> is_nan (x + y) = true.
Proof.
  intros H. apply is_nan_true. rewrite FloatAxioms.add_spec, (is_nan_Prim2SF y H).
  destruct (Prim2SF x) as [s|s| |s m e]; reflexivity.
Qed.

Lemma sqrt_nan (x : float) : is_nan x = true -> is_nan (PrimFloat.sqrt x) = true.
Proof.
  intros H. apply is_nan_true. rewrite FloatAxioms.sqrt_spec, (is_nan_Prim2SF x H).
  reflexivity.
Qed.

(** A NaN coordinate of the surface point makes every distance NaN. *)
Lemma linalg_norm_nan (v c : point) :
  has_nan c = true -> is_nan (linalg_norm (psub v c)) = true.
Proof.
  destruct v as [[vx vy] vz], c as [[cx cy] cz].
  unfold has_nan, linalg_norm, psub, px, py, pz. cbn [fst snd].
  rewrite !orb_true_iff. intros [[H|H]|H]; apply sqrt_nan.
  - apply add_nan_l, add_nan_l, mul_nan, sub_nan_r, H.
  - apply add_nan_l, add_nan_r, mul_nan, sub_nan_r, H.
  - apply add_nan_r, mul_nan, sub_nan_r, H.
Qed.

(** X9: when the surface point the locator library returns has a NaN
    coordinate, every distance is NaN and the snapping returns vertex 0,
    whatever the mesh. *)
Theorem nan_surface_point_snaps_to_the_first_vertex
    (L : Libraries) (p : point) (st : Store) (c v0 : point) :
  signed_distance L p (_vertices (self st)) (_faces (self st)) = Returned c ->
  has_nan c = true ->
  nth_error (_vertices (self st)) 0 = Some v0 ->
  fst (_snap_to_closest_vertex L p st) = Returned (c, v0, 0).
Proof.
  intros Hc Hnan Hv.
  rewrite snap_run. cbn [fst]. unfold snap_outcome, vertex_distances.
  rewrite Hc. cbn [obind].
  destruct (_vertices (self st)) as [|v vs] eqn:EV; [discriminate|].
  injection Hv as ->.
  cbn [map argmin]. cbn beta.
  assert (argmin_from 1 0 (linalg_norm (psub v0 c))
            (map (fun v => linalg_norm (psub v c)) vs) = 0) as ->.
  { destruct (map _ vs); cbn [argmin_from];
      rewrite (linalg_norm_nan v0 c Hnan); reflexivity. }
  reflexivity.
Qed.

(** The square of a difference does not depend on the order of its terms. *)
Lemma binary_round_aux_square (sx : bool) (mx ex : Z) (lx : location) :
  SFmul prec emax (binary_round_aux prec emax sx mx ex lx)
                  (binary_round_aux prec emax sx mx ex lx) =
  SFmul prec emax (binary_round_aux prec emax (negb sx) mx ex lx)
                  (binary_round_aux prec emax (negb sx) mx ex lx).
Proof.
  unfold binary_round_aux.
  destruct (shr_fexp prec emax mx ex lx) as [mrs' e'].
  destruct (shr_fexp prec emax _ e' loc_Exact) as [mrs'' e''].
  destruct (shr_m mrs''); try reflexivity.
  - destruct sx; reflexivity.
  - destruct (e'' <=? emax - prec)%Z; destruct sx; reflexivity.
Qed.

Lemma SFsub_square_swap (x y : spec_float) :
  SFmul prec emax (SFsub prec emax x y) (SFsub prec emax x y) =
  SFmul prec emax (SFsub prec emax y x) (SFsub prec emax y x).
Proof.
  destruct x as [sx|sx| |sx mx ex], y as [sy|sy| |sy my ey];
    try (destruct sx; try destruct sy; reflexivity);
    try (destruct sy; reflexivity); try reflexivity.
  unfold SFsub. rewrite (Z.min_comm ey ex).
  set (ez := Z.min ex ey).
  set (a := cond_Zopp sx (Z.pos (fst (shl_align mx ex ez)))).
  set (b := cond_Zopp sy (Z.pos (fst (shl_align my ey ez)))).
  replace (b - a)%Z with (- (a - b))%Z by lia.
  destruct (a - b)%Z as [|d|d]; simpl Z.opp; unfold binary_normalize, binary_round.
  - reflexivity.
  - destruct (shl_align d ez _) as [mz ez']. apply (binary_round_aux_square false).
  - destruct (shl_align d ez _) as [mz ez']. apply (binary_round_aux_square true).
Qed.

Lemma sub_square_swap (x y : float) :
  ((x - y) * (x - y))%float = ((y - x) * (y - x))%float.
Proof.
  apply Prim2SF_inj. rewrite !FloatAxioms.mul_spec, !FloatAxioms.sub_spec.
  apply SFsub_square_swap.
Qed.

(** X10: the straight-line distance does not depend on the direction: the
    norm of goal minus start is NaN exactly when the norm of start minus
    goal is, and when it is not NaN the two are the same float64 value. *)
Theorem straight_line_distance_is_symmetric (start goal : point) :
  is_nan (linalg_norm (psub goal start)) = is_nan (linalg_norm (psub start goal)) /\
  (is_nan (linalg_norm (psub goal start)) = false ->
   linalg_norm (psub goal start) = linalg_norm (psub start goal)).
Proof.
  assert (linalg_norm (psub goal start) = linalg_norm (psub start goal)) as E.
  { destruct start as [[sx sy] sz], goal as [[gx gy] gz].
    unfold linalg_norm, psub, px, py, pz. cbn [fst snd].
    now rewrite (sub_square_swap gx sx), (sub_square_swap gy sy), (sub_square_swap gz sz). }
  split; [now rewrite E | intros _; exact E].
Qed.

(** X11: no computed distance is negative: the norm is NaN or at least
    zero; and the distance of a finite point to itself is +0. *)
Theorem computed_distances_are_not_negative (a b : point) :
  (is_nan (linalg_norm (psub a b)) = true \/
   (0 <=? linalg_norm (psub a b))%float = true) /\
  (finite3 a = true -> linalg_norm (psub a a) = 0%float).
Proof.
  split; [apply sqrt_sign | apply linalg_norm_self].
Qed.

(** ** The visualization directory and the answer *)

Lemma snap_outcome_mesh (L : Libraries) (me me' : NavPlugin) (p : point) :
  _vertices me = _vertices me' -> _faces me = _faces me' ->
  snap_outcome L me p = snap_outcome L me' p.
Proof. unfold snap_outcome. now intros -> ->. Qed.

Lemma navigable_outcome_no_files (L : Libraries) (me : NavPlugin) (start goal : point) :
  _vis_dirpath me = None ->
  written_files (snd (navigable_outcome L me start goal)) = [].
Proof.
  intros Hvis. unfold navigable_outcome.
  destruct (snap_outcome L me start) as [[[cs cvs] s]|e]; [|reflexivity].
  destruct (snap_outcome L me goal) as [[[cg cvg] g]|e]; [|reflexivity].
  destruct (geodesicDistance L _ _ s g) as [[dist path]|e]; [|reflexivity].
  rewrite Hvis. reflexivity.
Qed.

(** X12: configuring a visualization directory never changes an answer: a
    navigable-distance computation that returns with a directory returns
    the same string on the same mesh without one. *)
Theorem visualization_does_not_change_the_answer
    (L : Libraries) (start goal : point) (st st' : Store) (r : string) :
  _vertices (self st') = _vertices (self st) ->
  _faces (self st') = _faces (self st) ->
  _vis_dirpath (self st') = None ->
  fst (_get_navigable_distance L start goal st) = Returned r ->
  fst (_get_navigable_distance L start goal st') = Returned r.
Proof.
  intros Hv Hf Hvis.
  rewrite !navigable_run. unfold navigable_outcome. cbn [fst].
  rewrite (snap_outcome_mesh L (self st') (self st) start Hv Hf),
          (snap_outcome_mesh L (self st') (self st) goal Hv Hf), Hv, Hf, Hvis.
  destruct (snap_outcome L (self st) start) as [[[cs cvs] s]|e]; [|discriminate].
  destruct (snap_outcome L (self st) goal) as [[[cg cvg] g]|e]; [|discriminate].
  destruct (geodesicDistance L _ _ s g) as [[dist path]|e]; [|discriminate].
  destruct (_vis_dirpath (self st)) as [dir|]; cbn [fst]; [|auto].
  destruct (visualize_outcome L _ _ _ _ _) as [[]|e]; cbn [obind];
    [auto|discriminate].
Qed.

(** ** The factory *)

(** X13: a plugin that [get_nav_plugin] builds without a visualization
    directory (as the planner set-up and the single-call script do) holds
    the mesh of the file and the chat of the factory, and none of its
    navigable-distance queries ever writes a file. *)
Theorem factory_plugin_writes_no_file
    {ModelFactory : Type} (L : Libraries) (factory : PluginsFactory ModelFactory)
    (navmesh_path : string) (me : NavPlugin) :
  get_nav_plugin L factory navmesh_path None = Returned me ->
  read_mesh_from_file L navmesh_path = Returned (_vertices me, _faces me) /\
  get_llm_chat (_chat_model_factory factory) = Returned (_llm_chat me) /\
  forall q evs,
    written_files
      (events (snd (get_actual_distance_from_query L q {| self := me; events := evs |}))) =
      written_files evs.
Proof.
  unfold get_nav_plugin, NavPlugin_init.
  destruct (get_llm_chat (_chat_model_factory factory)) as [chat|e]; cbn [obind];
    [|discriminate].
  destruct (read_mesh_from_file L navmesh_path) as [[vs fs]|e]; cbn [obind fst snd];
    [|discriminate].
  intros H. injection H as <-. cbn [_vertices _faces _llm_chat].
  split; [reflexivity|]. split; [reflexivity|].
  intros q evs.
  destruct (actual_distance_trace L q
              {| self := {| _vertices := vs; _faces := fs; _llm_chat := chat;
                            _vis_dirpath := None |};
                 events := evs |})
    as [ex [rest [Ea [_ [_ [Hw [_ Hrest]]]]]]].
  rewrite Ea. unfold log_event. cbn [snd events self].
  rewrite !written_files_app, Hw. cbn [app].
  cbn [self _llm_chat] in Hrest.
  destruct (get_response chat NAV_SYSTEM_PROMPT q) as [response|e].
  - destruct (positions_of L response) as [[start|] [goal|]];
      destruct Hrest as [_ Hwr]; rewrite Hwr, ?navigable_outcome_no_files,
        ?app_nil_r; reflexivity.
  - destruct Hrest as [_ Hwr]. now rewrite Hwr, app_nil_r.
Qed.

(** ** The configuration handler *)

Lemma dict_get_set_same {V : Type} (key : string) (value : V) (d : dict V) :
  dict_get key (dict_set key value d) = Some value.
Proof.
  induction d as [|[k v] d IH]; simpl.
  - now rewrite String.eqb_refl.
  - destruct (String.eqb k key) eqn:E; simpl; rewrite E; [reflexivity | exact IH].
Qed.

Lemma dict_get_set_other {V : Type} (key key' : string) (value : V) (d : dict V) :
  key' <> key ->
  dict_get key' (dict_set key value d) = dict_get key' d.
Proof.
  intros Hne. induction d as [|[k v] d IH]; simpl.
  - destruct (String.eqb_spec key key'); [congruence | reflexivity].
  - destruct (String.eqb_spec k key) as [->|Hk]; simpl.
    + destruct (String.eqb_spec key key'); [congruence | reflexivity].
    + destruct (String.eqb k key'); [reflexivity | exact IH].
Qed.

Lemma get_config_coherent (handler : ConfigHandler) (p : ConfigPrefix) :
  cache_coherent handler ->
  fst (get_config handler p) =
    Returned (read_config (_config handler) (prefix_value p)) /\
  _config (snd (get_config handler p)) = _config handler /\
  cache_coherent (snd (get_config handler p)).
Proof.
  intros Hc. unfold get_config. cbn [fst snd].
  destruct (dict_get (prefix_value p) (_retrieved_configs handler)) as [c|] eqn:E.
  - rewrite E. rewrite (Hc _ _ E). auto.
  - cbn [_retrieved_configs _config]. rewrite dict_get_set_same.
    split; [reflexivity|]. split; [reflexivity|].
    intros key config. cbn [_retrieved_configs _config].
    destruct (String.eqb_spec key (prefix_value p)) as [->|Hne].
    + rewrite dict_get_set_same. intros H. now injection H as <-.
    + rewrite (dict_get_set_other _ _ _ _ Hne). apply Hc.
Qed.

(** X14: the cache of [get_config] is transparent: in any run of calls on a
    fresh handler, every call returns, without a KeyError, the
    configuration read from the dotenv values under its own prefix, whether
    it is the first call for that prefix or a later one; the dotenv values
    are never changed. *)
Theorem get_config_cache_is_transparent
    (dotenv_values : dict (option string)) (calls : list ConfigPrefix) :
  fst (get_configs (ConfigHandler_init dotenv_values) calls) =
    map (fun p => Returned (read_config dotenv_values (prefix_value p))) calls /\
  _config (snd (get_configs (ConfigHandler_init dotenv_values) calls)) = dotenv_values.
Proof.
  assert (forall handler,
            cache_coherent handler ->
            fst (get_configs handler calls) =
              map (fun p => Returned (read_config (_config handler) (prefix_value p))) calls /\
            _config (snd (get_configs handler calls)) = _config handler) as H.
  { induction calls as [|p calls IH]; intros handler Hc; [now split|].
    cbn [get_configs].
    destruct (get_config_coherent handler p Hc) as [Ho [Hcfg Hc']].
    destruct (get_config handler p) as [o handler'] eqn:E. cbn [fst snd] in *.
    destruct (IH handler' Hc') as [Hos Hk].
    destruct (get_configs handler' calls) as [os handler''] eqn:E'. cbn [fst snd] in *.
    split.
    - cbn [map]. now rewrite Ho, Hos, Hcfg.
    - now rewrite Hk. }
  apply (H (ConfigHandler_init dotenv_values)).
  intros key config. discriminate.
Qed.

Lemma prefix_value_injective (p p' : ConfigPrefix) :
  prefix_value p = prefix_value p' -> p = p'.
Proof. destruct p, p'; simpl; intros H; try reflexivity; discriminate. Qed.

(** X15: [get_config] fills the cache once per prefix: after a call for a
    prefix, another call for it leaves the handler as it is, and a call for
    any prefix leaves the entry of the first untouched. *)
Theorem get_config_fills_the_cache_once (handler : ConfigHandler) (p p' : ConfigPrefix) :
  snd (get_config (snd (get_config handler p)) p) = snd (get_config handler p) /\
  dict_get (prefix_value p)
    (_retrieved_configs (snd (get_config (snd (get_config handler p)) p'))) =
    dict_get (prefix_value p) (_retrieved_configs (snd (get_config handler p))).
Proof.
  assert (exists c, dict_get (prefix_value p)
                      (_retrieved_configs (snd (get_config handler p))) = Some c)
    as [c Hc].
  { unfold get_config. cbn [snd].
    destruct (dict_get (prefix_value p) (_retrieved_configs handler)) as [c|] eqn:E.
    - now exists c.
    - cbn [_retrieved_configs]. rewrite dict_get_set_same. now eexists. }
  set (h := snd (get_config handler p)) in *.
  split.
  - unfold get_config at 1. cbn [snd]. now rewrite Hc.
  - unfold get_config at 1. cbn [snd].
    destruct (dict_get (prefix_value p') (_retrieved_configs h)) as [c'|] eqn:E';
      [reflexivity|].
    cbn [_retrieved_configs]. apply dict_get_set_other.
    intros Heq. apply prefix_value_injective in Heq. subst p'. congruence.
Qed.

(** ** The order of the calls *)

(** X16: once the locator has answered for both points, the computation
    has called the locator on the start point, then on the goal point, then
    the solver once, from the vertex snapped for the start to the vertex
    snapped for the goal, and nothing else of the two. *)
Theorem navigable_distance_calls_in_order
    (L : Libraries) (start goal : point) (st : Store)
    (cs cvs cg cvg : point) (s g : nat) :
  fst (_snap_to_closest_vertex L start st) = Returned (cs, cvs, s) ->
  fst (_snap_to_closest_vertex L goal st) = Returned (cg, cvg, g) ->
  geometry_calls (events (snd (_get_navigable_distance L start goal st))) =
    geometry_calls (events st)
    ++ [SignedDistanceCall start; SignedDistanceCall goal; GeodesicCall s g].
Proof.
  rewrite navigable_run, !snap_outcome_fst. unfold navigable_outcome.
  intros Hs Hg. rewrite Hs, Hg. unfold log_event. cbn [snd events].
  rewrite geometry_calls_app. f_equal.
  destruct (geodesicDistance L _ _ s g) as [[dist path]|e]; [|reflexivity].
  destruct (_vis_dirpath (self st)) as [dir|]; [|reflexivity].
  cbn [snd]. rewrite !geometry_calls_app.
  destruct (figure_of _ _ _ _); reflexivity.
Qed.

(** X17: a query that falls back (sentinel, or no two triples) has called
    neither the locator nor the solver and has written no file. *)
Theorem fallback_leaves_the_mesh_alone
    (L : Libraries) (q : string) (st : Store) (response : string) :
  get_response (_llm_chat (self st)) NAV_SYSTEM_PROMPT q = Returned response ->
  response = "None" \/ ~ holds_two_triples L response ->
  geometry_calls (events (snd (get_actual_distance_from_query L q st))) =
    geometry_calls (events st) /\
  written_files (events (snd (get_actual_distance_from_query L q st))) =
    written_files (events st).
Proof.
  intros Hr Hf.
  destruct (actual_distance_trace L q st) as [ex [rest [Ea [_ [Hg [Hw [_ Hrest]]]]]]].
  rewrite Ea. rewrite Hr, (positions_of_failed L response Hf) in Hrest.
  destruct Hrest as [Hgr Hwr].
  unfold log_event. cbn [snd events].
  rewrite !geometry_calls_app, !written_files_app, Hg, Hw, Hgr, Hwr, !app_nil_r.
  split; reflexivity.
Qed.

(** X18: the extraction hands back two positions or none: never one
    position alone, and never an exception once the chat model has
    answered. *)
Theorem extraction_returns_both_or_none
    (L : Libraries) (q : string) (st : Store) (response : string) :
  get_response (_llm_chat (self st)) NAV_SYSTEM_PROMPT q = Returned response ->
  fst (_nl_to_numpy L q st) = Returned (None, None) \/
  exists first second, fst (_nl_to_numpy L q st) = Returned (Some first, Some second).
Proof.
  intros Hr.
  destruct (nl_to_numpy_run L q st response Hr) as [new [E _]].
  rewrite E. cbn [fst].
  destruct (positions_of_shape L response) as [H|[first [second H]]]; rewrite H.
  - now left.
  - right. now exists first, second.
Qed.

(** * The further statements on the bench *)

Lemma chat_failure_propagates_on_bench :
  fst (get_actual_distance_from_query (Bench.rectangle_libs Bench.writes) "q"
         (Cases.broken_plugin (Some "out"))) = Raised (PyExn "APIConnectionError") /\
  fst (get_straight_line_distance_from_query (Bench.rectangle_libs Bench.writes) "q"
         (Cases.broken_plugin (Some "out"))) = Raised (PyExn "APIConnectionError").
Proof.
  destruct (chat_failure_propagates (Bench.rectangle_libs Bench.writes) "q"
              (Cases.broken_plugin (Some "out")) (PyExn "APIConnectionError") eq_refl)
    as [Ha [Hs _]].
  split; assumption.
Defined.


(** A response without parentheses is read like the one with them. *)
Lemma parentheses_are_ignored_on_bench :
  fst (_nl_to_numpy (Bench.rectangle_libs Bench.writes) "q"
         (Bench.rectangle_plugin "(0,0,0),(3,4,0)" None)) =
  fst (_nl_to_numpy (Bench.rectangle_libs Bench.writes) "q"
         (Bench.rectangle_plugin "0,0,0),3,4,0" None)).
Proof.
  apply (parentheses_are_ignored (Bench.rectangle_libs Bench.writes) "q" "q"
           (Bench.rectangle_plugin "(0,0,0),(3,4,0)" None)
           (Bench.rectangle_plugin "0,0,0),3,4,0" None)
           "(0,0,0),(3,4,0)" "0,0,0),3,4,0").
  - reflexivity.
  - reflexivity.
  - vm_compute. reflexivity.
Defined.

Lemma visualizer_draws_indexable_meshes_on_bench :
  exists fig x y z rest,
    visualize_navmesh_3d (Bench.rectangle_libs Bench.writes)
      Bench.rectangle_vertices Bench.rectangle_faces "out/path.html"
      (Some [(3, 4, 0); (0, 0, 0)]%float)
      [("start", ((0, 0, 0)%float, "blue")); ("goal", ((3, 4, 0)%float, "green"));
       ("closest_start", ((0, 0, 0)%float, "darkblue"));
       ("closest_goal", ((3, 4, 0)%float, "darkgreen"));
       ("closest_v_start", ((0, 0, 0)%float, "lightblue"));
       ("closest_v_goal", ((3, 4, 0)%float, "lightgreen"))]
      (Bench.rectangle_plugin "" None) =
      (write_html (Bench.rectangle_libs Bench.writes) fig "out/path.html",
       log_event (Bench.rectangle_plugin "" None) [WriteHtmlCall "out/path.html" fig]) /\
    fig_data fig = Mesh3d x y z [0; 3] [1; 4] [2; 5] "blue" :: rest /\
    List.length x = 6 /\ List.length y = 6 /\ List.length z = 6 /\
    map trace_name rest =
      ["edges"; "shortest path"; "start"; "goal"; "closest_start"; "closest_goal";
       "closest_v_start"; "closest_v_goal"].
Proof.
  apply (visualizer_draws_indexable_meshes (Bench.rectangle_libs Bench.writes)
           Bench.rectangle_vertices Bench.rectangle_faces "out/path.html"
           (Some [(3, 4, 0); (0, 0, 0)]%float)
           (0, 0, 0)%float (3, 4, 0)%float (0, 0, 0)%float (3, 4, 0)%float
           (0, 0, 0)%float (3, 4, 0)%float
           (Bench.rectangle_plugin "" None)).
  - discriminate.
  - reflexivity.
  - discriminate.
Defined.

(** No face, a face that points past the vertices, an empty path. *)
Lemma visualizer_rejects_before_writing_on_bench :
  visualize_navmesh_3d (Bench.rectangle_libs Bench.writes)
    Bench.rectangle_vertices [] "out/path.html" None []
    (Bench.rectangle_plugin "" None) =
    (Raised ValueError, Bench.rectangle_plugin "" None) /\
  visualize_navmesh_3d (Bench.rectangle_libs Bench.writes)
    Bench.rectangle_vertices [(0, 1, 4)%Z] "out/path.html" None []
    (Bench.rectangle_plugin "" None) =
    (Raised IndexError, Bench.rectangle_plugin "" None) /\
  visualize_navmesh_3d (Bench.rectangle_libs Bench.writes)
    Bench.rectangle_vertices Bench.rectangle_faces "out/path.html" (Some []) []
    (Bench.rectangle_plugin "" None) =
    (Raised ValueError, Bench.rectangle_plugin "" None).
Proof.
  split; [|split].
  - apply (proj1 (visualizer_rejects_before_writing (Bench.rectangle_libs Bench.writes)
                    Bench.rectangle_vertices [] "out/path.html" None []
                    (Bench.rectangle_plugin "" None))).
    reflexivity.
  - apply (proj1 (proj2 (visualizer_rejects_before_writing
                           (Bench.rectangle_libs Bench.writes)
                           Bench.rectangle_vertices [(0, 1, 4)%Z] "out/path.html" None []
                           (Bench.rectangle_plugin "" None)))).
    reflexivity.
  - apply (proj2 (proj2 (visualizer_rejects_before_writing
                           (Bench.rectangle_libs Bench.writes)
                           Bench.rectangle_vertices Bench.rectangle_faces
                           "out/path.html" (Some []) []
                           (Bench.rectangle_plugin "" None)))).
    + reflexivity.
    + reflexivity.
Defined.

(** The islands with a visualization directory: the query that returns the
    not-navigable answer without one raises ValueError with one. *)
Lemma empty_path_fails_the_visualized_computation_on_bench :
  fst (_get_navigable_distance Bench.islands_libs (0, 0, 0)%float (5, 0, 0)%float
         (Bench.islands_plugin (Some "out"))) = Raised ValueError /\
  written_files
    (events (snd (_get_navigable_distance Bench.islands_libs
                    (0, 0, 0)%float (5, 0, 0)%float
                    (Bench.islands_plugin (Some "out"))))) = [].
Proof.
  apply (empty_path_fails_the_visualized_computation Bench.islands_libs
           (0, 0, 0)%float (5, 0, 0)%float (Bench.islands_plugin (Some "out"))
           (0, 0, 0)%float (0, 0, 0)%float (5, 0, 0)%float (5, 0, 0)%float 0 3
           (Some 0%float) "out").
  - reflexivity.
  - vm_compute. reflexivity.
  - vm_compute. reflexivity.
  - vm_compute. reflexivity.
Defined.

(** The diagonal of the rectangle, both ways. *)
Lemma straight_line_distance_is_symmetric_on_bench :
  linalg_norm (psub (3, 4, 0)%float (0, 0, 0)%float) = 5%float /\
  linalg_norm (psub (0, 0, 0)%float (3, 4, 0)%float) = 5%float.
Proof.
  assert (linalg_norm (psub (3, 4, 0)%float (0, 0, 0)%float) = 5%float) as E
    by (vm_compute; reflexivity).
  split; [exact E|].
  rewrite <- (proj2 (straight_line_distance_is_symmetric (0, 0, 0)%float (3, 4, 0)%float));
    [exact E | now rewrite E].
Defined.

Lemma nan_surface_point_snaps_to_the_first_vertex_on_bench :
  fst (_snap_to_closest_vertex Cases.echo_libs (3, nan, 0)%float
         (Bench.rectangle_plugin "" None)) =
    Returned ((3, nan, 0)%float, (0, 0, 0)%float, 0).
Proof.
  apply (nan_surface_point_snaps_to_the_first_vertex Cases.echo_libs (3, nan, 0)%float
           (Bench.rectangle_plugin "" None) (3, nan, 0)%float (0, 0, 0)%float).
  - reflexivity.
  - reflexivity.
  - reflexivity.
Defined.

Lemma visualization_does_not_change_the_answer_on_bench :
  fst (_get_navigable_distance (Bench.rectangle_libs Bench.writes)
         (0, 0, 0)%float (3, 4, 0)%float (Bench.rectangle_plugin "" None)) =
    Returned "The distance between specified points is 5.0 meters.".
Proof.
  apply (visualization_does_not_change_the_answer (Bench.rectangle_libs Bench.writes)
           (0, 0, 0)%float (3, 4, 0)%float
           (Bench.rectangle_plugin "" (Some "out")) (Bench.rectangle_plugin "" None)).
  - reflexivity.
  - reflexivity.
  - reflexivity.
  - vm_compute. reflexivity.
Defined.

Lemma factory_plugin_writes_no_file_on_bench :
  read_mesh_from_file (Bench.rectangle_libs Bench.writes) "navmesh.txt" =
    Returned (Bench.rectangle_vertices, Bench.rectangle_faces) /\
  written_files
    (events (snd (get_actual_distance_from_query (Bench.rectangle_libs Bench.writes) "q"
                    (Bench.rectangle_plugin "(0,0,0),(3,4,0)" None)))) = [].
Proof.
  destruct (factory_plugin_writes_no_file (Bench.rectangle_libs Bench.writes)
              (Cases.factory "(0,0,0),(3,4,0)") "navmesh.txt"
              (self (Bench.rectangle_plugin "(0,0,0),(3,4,0)" None)) eq_refl)
    as [Hmesh [_ Hfiles]].
  split; [exact Hmesh | exact (Hfiles "q" [])].
Defined.

Lemma navigable_distance_calls_in_order_on_bench :
  geometry_calls
    (events (snd (_get_navigable_distance (Bench.rectangle_libs Bench.writes)
                    (0, 0, 0)%float (3, 4, 0)%float
                    (Bench.rectangle_plugin "" (Some "out"))))) =
    [SignedDistanceCall (0, 0, 0)%float; SignedDistanceCall (3, 4, 0)%float;
     GeodesicCall 0 2].
Proof.
  apply (navigable_distance_calls_in_order (Bench.rectangle_libs Bench.writes)
           (0, 0, 0)%float (3, 4, 0)%float (Bench.rectangle_plugin "" (Some "out"))
           (0, 0, 0)%float (0, 0, 0)%float (3, 4, 0)%float (3, 4, 0)%float 0 2).
  - vm_compute. reflexivity.
  - vm_compute. reflexivity.
Defined.

Lemma fallback_leaves_the_mesh_alone_on_bench :
  geometry_calls
    (events (snd (get_actual_distance_from_query (Bench.rectangle_libs Bench.writes) "q"
                    (Bench.rectangle_plugin "(1,2,3)" (Some "out"))))) = [] /\
  written_files
    (events (snd (get_actual_distance_from_query (Bench.rectangle_libs Bench.writes) "q"
                    (Bench.rectangle_plugin "(1,2,3)" (Some "out"))))) = [].
Proof.
  apply (fallback_leaves_the_mesh_alone (Bench.rectangle_libs Bench.writes) "q"
           (Bench.rectangle_plugin "(1,2,3)" (Some "out")) "(1,2,3)").
  - reflexivity.
  - right. apply one_triple_is_not_two.
Defined.

Lemma extraction_returns_both_or_none_on_bench :
  fst (_nl_to_numpy (Bench.rectangle_libs Bench.writes) "q"
         (Bench.rectangle_plugin "(1,2,3)" None)) = Returned (None, None) \/
  exists first second,
    fst (_nl_to_numpy (Bench.rectangle_libs Bench.writes) "q"
           (Bench.rectangle_plugin "(1,2,3)" None)) =
      Returned (Some first, Some second).
Proof.
  apply (extraction_returns_both_or_none (Bench.rectangle_libs Bench.writes) "q"
           (Bench.rectangle_plugin "(1,2,3)" None) "(1,2,3)").
  reflexivity.
Defined.

(** The dotenv file of the bench: the chat's endpoint is read, its missing
    temperature is the default, the one of SQL is the text of the file. *)
Example get_config_on_bench :
  fst (get_configs (ConfigHandler_init Cases.dotenv) [CHAT; SQL; CHAT]) =
    [Returned (read_config Cases.dotenv "CHAT");
     Returned (read_config Cases.dotenv "SQL");
     Returned (read_config Cases.dotenv "CHAT")] /\
  endpoint (read_config Cases.dotenv "CHAT") = Some "https://example.openai.azure.com" /\
  temperature (read_config Cases.dotenv "CHAT") = TemperatureFloat 0x1.999999999999ap-4 /\
  temperature (read_config Cases.dotenv "SQL") = TemperatureRead (Some "0.0") /\
  List.length (_retrieved_configs
                 (snd (get_configs (ConfigHandler_init Cases.dotenv) [CHAT; SQL; CHAT]))) = 2.
Proof. repeat split; reflexivity. Qed.
